(** * Incremental OHLC synchronisation (src/ohlc.py)

    A shallow embedding of the two OHLC updaters of [src/ohlc.py]
    ([CryptoCompareOHLC], [IBOHLC]) and of [OHLCUpdaterFactory], followed by
    the properties of the synchronisation engine.

    Modelling conventions.
    - A [dt.date] is the number of days since 1970-01-01; a [dt.datetime] is
      a number of microseconds since 1970-01-01T00:00 (naive). The process
      time zone is taken to be UTC, so that [fromtimestamp] and [timestamp]
      are plain scalings.
    - A Python [float] price is idealised as an exact rational ([Q]); rounding
      is outside the model.
    - The methods mutate [self], the Bar Store and the network; they are
      written in a state-and-exception monad over a [World] and return the
      updated object.
    - A local variable or attribute that may be unbound is an [option]; reading
      it while [None] raises the exception Python raises. *)

From Stdlib Require Import ZArith QArith Lqa List String Ascii Bool Lia.
Import ListNotations.

#[local] Open Scope string_scope.
#[local] Open Scope list_scope.
#[local] Open Scope Z_scope.

(** ** Dates and times *)

Definition date := Z.
Definition datetime := Z.

Definition usec_per_sec : Z := 1000000.
Definition sec_per_day : Z := 86400.
Definition usec_per_day : Z := sec_per_day * usec_per_sec.

(** [datetime.date()] *)
Definition datetime_date (t : datetime) : date := t / usec_per_day.

(** [dt.datetime.fromtimestamp(s)] for an integer number of seconds. *)
Definition fromtimestamp (s : Z) : datetime := s * usec_per_sec.

(** [dt.datetime.combine(d, dt.time(hour))] *)
Definition combine (d : date) (hour : Z) : datetime :=
  d * usec_per_day + hour * 3600 * usec_per_sec.

(** [int(dt.datetime.timestamp(t))]: [int] truncates towards zero. *)
Definition int_timestamp (t : datetime) : Z := Z.quot t usec_per_sec.

(** [dt.timedelta(n)] and [dt.timedelta(minutes=n)] added to a datetime. *)
Definition timedelta_days (n : Z) : Z := n * usec_per_day.
Definition timedelta_minutes (n : Z) : Z := n * 60 * usec_per_sec.

(** [dt.datetime(2000, 1, 1)]: 10957 days after the epoch. *)
Definition datetime_2000_01_01 : datetime := 10957 * usec_per_day.

(** [pd.to_datetime(t, unit="ms")] *)
Definition to_datetime_ms (ms : Z) : datetime := ms * 1000.

(** ** Tables of [src/models.py] *)

Record Instrument := mkInstrument {
  symbol_of : string;
  base_currency : string;
  quote_currency : string;
  exchange : string;
  vehicle : string;
  time_zone : string
}.

(** A row of the [ohlc] table. The autoincrement [id] is the database's and
    is left out, as is the [symbol_date] label the updaters compute. *)
Record OHLC := mkOHLC {
  ohlc_symbol : string;
  ohlc_date : datetime;
  ohlc_open : Q;
  ohlc_high : Q;
  ohlc_low : Q;
  ohlc_close : Q
}.

(** ** Upstream payloads *)

(** One element of [data["Data"]["Data"]] of the vendor's histoday answer. *)
Record RawBar := mkRawBar {
  raw_time : Z;
  raw_open : Q;
  raw_high : Q;
  raw_low : Q;
  raw_close : Q
}.

(** The tuple [(date, open, high, low, close)] built by
    [request_cryptocompare]; field [k] is index [k] of the tuple. *)
Record Bar := mkBar {
  bar_0 : datetime;
  bar_1 : Q;
  bar_2 : Q;
  bar_3 : Q;
  bar_4 : Q
}.

(** One element of [bars["data"]] of the brokerage answer. *)
Record IBBar := mkIBBar {
  ib_o : Q;
  ib_c : Q;
  ib_h : Q;
  ib_l : Q;
  ib_v : Q;
  ib_t : Z
}.

(** One row of the data frame after the renaming of the columns. *)
Record DfRow := mkDfRow {
  df_open : Q;
  df_close : Q;
  df_high : Q;
  df_low : Q;
  df_volume : Q;
  df_date : datetime;
  df_symbol : string
}.

(** ** The world the updaters run in *)

Inductive Request :=
| GetBlockchainList
| GetHistoday (fsym tsym : string) (limit : Z) (toTs : Z)
| GetBars (symbol period bar : string).

Inductive Event :=
| Fetch (r : Request)
| Write (rows : list OHLC).

(** What the run reads but never changes: the clock, the environment
    variables, the instrument table and the answers of the two upstreams
    ([None]: the request or the decoding of its answer raises). *)
Record Env := mkEnv {
  today : date;
  now : datetime;
  instrument_table : list Instrument;
  data_available_from : option Z;
  histoday : string -> string -> Z -> Z -> option (list RawBar);
  get_bars : string -> string -> string -> option (list IBBar);
  TIME_CHECKER : option string;
  time_check : string -> string -> bool
}.

Record World := mkWorld {
  store : list OHLC;
  trace : list Event
}.

(** ** Exceptions and the monad *)

Inductive exn :=
| UnboundLocalError (name : string)
| AttributeError (name : string)
| TypeError
| IndexError
| KeyError (key : string)
| RequestError (r : Request)
| NoResultFound (symbol : string)
| FuelExhausted.

Inductive outcome (A : Type) :=
| Ok (a : A) (w : World)
| Raise (e : exn) (w : World).
Arguments Ok {A} a w.
Arguments Raise {A} e w.

Definition M (A : Type) : Type := World -> outcome A.

Definition ret {A} (a : A) : M A := fun w => Ok a w.

Definition bind {A B} (m : M A) (k : A -> M B) : M B :=
  fun w => match m w with
           | Ok a w' => k a w'
           | Raise e w' => Raise e w'
           end.

Definition raise {A} (e : exn) : M A := fun w => Raise e w.

Declare Scope py_scope.
Delimit Scope py_scope with py.
Notation "x <- m ;; k" := (bind m (fun x => k))
  (at level 100, m at next level, right associativity) : py_scope.
Notation "m ;;; k" := (bind m (fun _ => k))
  (at level 100, right associativity) : py_scope.
#[local] Open Scope py_scope.

Definition final_world {A} (o : outcome A) : World :=
  match o with Ok _ w => w | Raise _ w => w end.

Definition log_event (e : Event) : M unit :=
  fun w => Ok tt (mkWorld (store w) (trace w ++ [e])).

(** An HTTP request: it is recorded, then answers or raises. *)
Definition http {A} (r : Request) (answer : option A) : M A :=
  log_event (Fetch r) ;;;
  match answer with
  | Some a => ret a
  | None => raise (RequestError r)
  end.

(** [session.add_all(records); session.commit()] and
    [df.to_sql("ohlc", engine, if_exists="append")]. *)
Definition append_rows (rows : list OHLC) : M unit :=
  fun w => Ok tt (mkWorld (store w ++ rows) (trace w ++ [Write rows])).

(** Reading a local variable that may still be unbound. *)
Definition read_local {A} (name : string) (slot : option A) : M A :=
  match slot with
  | Some v => ret v
  | None => raise (UnboundLocalError name)
  end.

(** Reading an attribute that may never have been set. *)
Definition read_attr {A} (name : string) (slot : option A) : M A :=
  match slot with
  | Some v => ret v
  | None => raise (AttributeError name)
  end.

(** Truth value of an [Optional[date]] or [Optional[datetime]]: a date or
    datetime object is always true, [None] is false. *)
Definition truthy {A} (x : option A) : bool :=
  match x with Some _ => true | None => false end.

Definition is_None {A} (x : option A) : bool :=
  match x with Some _ => false | None => true end.

(** ** Collaborators of [src/db_utils.py] *)

(** Modelled from the spec: [src/db_utils.py] is not part of the sources;
    its [get_instrument] is the Instrument Registry collaborator
    "get_instrument(symbol) -> Instrument (fails if unknown)". *)
Definition get_instrument (env : Env) (symbol : string) : M Instrument :=
  match find (fun i => String.eqb (symbol_of i) symbol) (instrument_table env) with
  | Some i => ret i
  | None => raise (NoResultFound symbol)
  end.

(** Modelled from the spec: one step of the "most recent bar per
    instrument" query, keeping the later of two bars of [symbol]. *)
Definition later_of (symbol : string) (acc : option OHLC) (r : OHLC) : option OHLC :=
  if String.eqb (ohlc_symbol r) symbol then
    match acc with
    | None => Some r
    | Some a => if ohlc_date a <=? ohlc_date r then Some r else Some a
    end
  else acc.

(** Modelled from the spec: [src/db_utils.py] is not part of the sources;
    its [get_latest_record] is the Bar Store collaborator
    "latest_bar(symbol) -> Bar | none", the most recent bar of the
    instrument. It reads the store and changes nothing. *)
Definition get_latest_record (symbol : string) : M (option OHLC) :=
  fun w => Ok (fold_left (later_of symbol) (store w) None) w.

(** ** The crypto-vendor updater *)

Module CryptoCompareOHLC.

Record t := mk {
  symbol : string;
  start_date : option date;
  end_date : option date;
  instrument : Instrument;
  data : option (list Bar)
}.

Definition set_data (self : t) (all_data : list Bar) : t :=
  mk (symbol self) (start_date self) (end_date self) (instrument self)
     (Some all_data).

(** [__init__(symbol, end_date=None, start_date=None)]; [self.data] is not
    set by the initialiser. *)
Definition init (env : Env) (symbol : string)
    (end_date start_date : option date) : M t :=
  i <- get_instrument env symbol ;;
  ret (mk symbol start_date end_date i None).

(** [list(zip(date_array, open_array, high_array, low_array, close_array))] *)
Fixpoint zip5 (ds : list datetime) (os hs ls cs : list Q) : list Bar :=
  match ds, os, hs, ls, cs with
  | d :: ds', o :: os', h :: hs', l :: ls', c :: cs' =>
      mkBar d o h l c :: zip5 ds' os' hs' ls' cs'
  | _, _, _, _, _ => []
  end.

(** The [toTs] parameter: 06:00 of [to_date]. *)
Definition toTs (to_date : date) : Z := int_timestamp (combine to_date 6).

(** [request_cryptocompare]: the answer is walked in reverse into the
    five [_rev] arrays, each of which is then flipped. *)
Definition request_cryptocompare (env : Env) (self : t)
    (limit : Z) (to_date : date) : M (list Bar) :=
  let fsym := base_currency (instrument self) in
  let tsym := quote_currency (instrument self) in
  raw <- http (GetHistoday fsym tsym limit (toTs to_date))
              (histoday env fsym tsym limit (toTs to_date)) ;;
  let date_array_rev := map (fun bar => fromtimestamp (raw_time bar)) (rev raw) in
  let open_array_rev := map raw_open (rev raw) in
  let high_array_rev := map raw_high (rev raw) in
  let low_array_rev := map raw_low (rev raw) in
  let close_array_rev := map raw_close (rev raw) in
  let date_array := rev date_array_rev in
  let open_array := rev open_array_rev in
  let high_array := rev high_array_rev in
  let low_array := rev low_array_rev in
  let close_array := rev close_array_rev in
  ret (zip5 date_array open_array high_array low_array close_array).

(** [end_date - start_date] on an [Optional[date]]: a [None] operand is a
    [TypeError]. *)
Definition days_between (end_date : date) (start_date : option date) : M Z :=
  match start_date with
  | Some s => ret (end_date - s)
  | None => raise TypeError
  end.

(** Lines 106-127: the two guarded assignments of the local [limit],
    which is unbound on entry. The result is the state of that local
    when control reaches [if limit > 2000]. *)
Definition set_api_limit (env : Env) (end_date : date)
    (start_date : option date) : M (option Z) :=
  let limit : option Z := None in
  limit <- (if truthy start_date then
              date_diff <- days_between end_date start_date ;;
              ret (Some date_diff)
            else ret limit) ;;
  if is_None start_date then
    first_ts <- http GetBlockchainList (data_available_from env) ;;
    let first_date := datetime_date (fromtimestamp first_ts) in
    let date_diff := end_date - first_date in
    ret (Some date_diff)
  else ret limit.

(** [data[0]] *)
Definition first_row (data : list Bar) : M Bar :=
  match data with
  | b :: _ => ret b
  | [] => raise IndexError
  end.

(** [while limit > 2000: ...] (lines 134-138). Every turn lowers [limit]
    by 2000, so [fuel] turns are enough as soon as [limit <= 2000 * fuel
    + 2000]. *)
Fixpoint pages_loop (env : Env) (self : t) (fuel : nat)
    (limit : Z) (to_date : date) (all_data : list Bar)
    : M (Z * date * list Bar) :=
  if limit >? 2000 then
    match fuel with
    | O => raise FuelExhausted
    | S fuel' =>
        data <- request_cryptocompare env self 2000 to_date ;;
        let all_data := data ++ all_data in
        let limit := limit - 2000 in
        d0 <- first_row data ;;
        let to_date := datetime_date (bar_0 d0) - 1 in
        pages_loop env self fuel' limit to_date all_data
    end
  else ret (limit, to_date, all_data).

(** Lines 129-144. *)
Definition fetch_pages (env : Env) (self : t) (limit : Z) (end_date : date)
    : M (list Bar) :=
  if limit >? 2000 then
    st <- pages_loop env self (Z.to_nat limit) limit end_date [] ;;
    let '(limit, to_date, all_data) := st in
    if limit >? 0 then
      data <- request_cryptocompare env self limit to_date ;;
      ret (data ++ all_data)
    else ret all_data
  else request_cryptocompare env self limit end_date.

(** [sum([ohlc[1], ohlc[2], ohlc[3], ohlc[4]]) != 0] *)
Definition ohlc_sum (ohlc : Bar) : Q :=
  (0 + bar_1 ohlc + bar_2 ohlc + bar_3 ohlc + bar_4 ohlc)%Q.

Definition sum_nonzero (ohlc : Bar) : bool := negb (Qeq_bool (ohlc_sum ohlc) 0).

(** [for i, ohlc in enumerate(all_data): if ...: break]: the value of the
    local [i] after the loop, [None] while it is unbound. *)
Fixpoint enumerate_loop (all_data : list Bar) (idx : nat) (i : option nat)
    : option nat :=
  match all_data with
  | [] => i
  | ohlc :: rest =>
      if sum_nonzero ohlc then Some idx
      else enumerate_loop rest (S idx) (Some idx)
  end.

(** Lines 149-153. *)
Definition strip_leading_zeros (all_data : list Bar) : M (list Bar) :=
  i <- read_local "i" (enumerate_loop all_data 0 None) ;;
  ret (skipn i all_data).

(** Lines 146-156. *)
Definition trim (start_date : option date) (all_data : list Bar) : M (list Bar) :=
  if negb (truthy start_date) then strip_leading_zeros all_data
  else ret (skipn 1 all_data).

Definition get_ohlc_data (env : Env) (self : t) (end_date : date)
    (start_date : option date) : M t :=
  if negb (String.eqb (vehicle (instrument self)) "crypto") then ret self
  else
    slot <- set_api_limit env end_date start_date ;;
    limit <- read_local "limit" slot ;;
    all_data <- fetch_pages env self limit end_date ;;
    all_data <- trim start_date all_data ;;
    ret (set_data self all_data).

Definition record_of (self : t) (i : Bar) : OHLC :=
  mkOHLC (symbol self) (bar_0 i) (bar_1 i) (bar_2 i) (bar_3 i) (bar_4 i).

Definition insert_ohlc_data (self : t) : M unit :=
  rows <- read_attr "data" (data self) ;;
  let records := map (record_of self) rows in
  append_rows records.

Definition update_ohlc_data (env : Env) (self : t) : M t :=
  latest_ohlc <- get_latest_record (symbol self) ;;
  match latest_ohlc with
  | None =>
      self <- get_ohlc_data env self (today env) None ;;
      insert_ohlc_data self ;;;
      ret self
  | Some latest =>
      if datetime_date (ohlc_date latest) =? today env - 1 then
        self <- get_ohlc_data env self (today env)
                  (Some (datetime_date (ohlc_date latest))) ;;
        insert_ohlc_data self ;;;
        ret self
      else if negb (datetime_date (ohlc_date latest) =? today env) then
        self <- get_ohlc_data env self (today env)
                  (Some (datetime_date (ohlc_date latest) + 1)) ;;
        insert_ohlc_data self ;;;
        ret self
      else ret self
  end.

End CryptoCompareOHLC.

(** ** The brokerage updater *)

Module IBOHLC.

(** The gateway client [self.ib] is the [get_bars] of the environment;
    [self.df] exists only once [get_ohlc_data] has set it. *)
Record t := mk {
  symbol : string;
  df : option (list DfRow)
}.

Definition init (env : Env) (symbol : string) : M t := ret (mk symbol None).

(** The frame after the conversion of [t], the renaming of the columns
    and the added [symbol] column. *)
Definition row_of (symbol : string) (b : IBBar) : DfRow :=
  mkDfRow (ib_o b) (ib_c b) (ib_h b) (ib_l b) (ib_v b)
          (to_datetime_ms (ib_t b)) symbol.

(** [pd.DataFrame(bars["data"])] followed by [df["t"]]: a frame built
    from no row has no column [t]. *)
Definition data_frame (symbol : string) (bars : list IBBar) : M (list DfRow) :=
  match bars with
  | [] => raise (KeyError "t")
  | _ => ret (map (row_of symbol) bars)
  end.

(** Lines 306-309; a datetime is always true. *)
Definition filter_window (start_date end_date : option datetime)
    (df : list DfRow) : list DfRow :=
  let df := match start_date with
            | Some s => filter (fun r => s <? df_date r) df
            | None => df
            end in
  let df := match end_date with
            | Some e => filter (fun r => df_date r <? e) df
            | None => df
            end in
  df.

(** Lines 289-312. *)
Definition fetch_and_filter (env : Env) (self : t)
    (start_date end_date : option datetime) : M t :=
  bars <- http (GetBars (symbol self) "5y" "1d")
               (get_bars env (symbol self) "5y" "1d") ;;
  df <- data_frame (symbol self) bars ;;
  let df := filter_window start_date end_date df in
  match df with
  | [] => ret self
  | _ => ret (mk (symbol self) (Some df))
  end.

(** [os.getenv("TIME_CHECKER") == "1"] *)
Definition time_checker_on (env : Env) : bool :=
  match TIME_CHECKER env with
  | Some v => String.eqb v "1"
  | None => false
  end.

Definition get_ohlc_data (env : Env) (self : t)
    (start_date end_date : option datetime) : M t :=
  if time_checker_on env then
    if negb (time_check env (symbol self) "forecast") then ret self
    else fetch_and_filter env self start_date end_date
  else fetch_and_filter env self start_date end_date.

Definition ohlc_of_row (r : DfRow) : OHLC :=
  mkOHLC (df_symbol r) (df_date r) (df_open r) (df_high r) (df_low r)
         (df_close r).

Definition insert_ohlc_data (self : t) : M unit :=
  rows <- read_attr "df" (df self) ;;
  append_rows (map ohlc_of_row rows).

(** Lines 264-270. *)
Definition fetch_and_insert (env : Env) (self : t) (start end_ : datetime)
    : M t :=
  self <- get_ohlc_data env self (Some start) (Some end_) ;;
  if truthy (df self) then
    insert_ohlc_data self ;;;
    ret self
  else ret self.

Definition update_ohlc_data (env : Env) (self : t) : M t :=
  latest_ohlc <- get_latest_record (symbol self) ;;
  match latest_ohlc with
  | None =>
      fetch_and_insert env self datetime_2000_01_01
                       (now env - timedelta_minutes 20)
  | Some latest =>
      if datetime_date (ohlc_date latest) =? today env then ret self
      else if datetime_date (ohlc_date latest) =? today env - 1 then
        fetch_and_insert env self (ohlc_date latest + timedelta_days 1)
                         (now env - timedelta_minutes 20)
      else if negb (datetime_date (ohlc_date latest) =? today env) then
        fetch_and_insert env self (ohlc_date latest + timedelta_days 1)
                         (now env - timedelta_minutes 20)
      else raise (UnboundLocalError "start")
  end.

End IBOHLC.

(** ** The factory *)

Module OHLCUpdaterFactory.

Inductive OHLCUpdater :=
| CryptoCompare (u : CryptoCompareOHLC.t)
| InteractiveBrokers (u : IBOHLC.t).

(** [str.lower()] on the ASCII range: source names are ASCII. *)
Definition lower_ascii (c : ascii) : ascii :=
  let n := nat_of_ascii c in
  if ((65 <=? n) && (n <=? 90))%nat then ascii_of_nat (n + 32) else c.

Fixpoint lower (s : string) : string :=
  match s with
  | EmptyString => EmptyString
  | String c s' => String (lower_ascii c) (lower s')
  end.

(** A call that falls off the end of the function returns [None]. *)
Definition create_updater (env : Env) (ohlc_data_source symbol : string)
    : M (option OHLCUpdater) :=
  if String.eqb (lower ohlc_data_source) "crypto-compare" then
    u <- CryptoCompareOHLC.init env symbol None None ;;
    ret (Some (CryptoCompare u))
  else if String.eqb (lower ohlc_data_source) "interactive-brokers" then
    u <- IBOHLC.init env symbol ;;
    ret (Some (InteractiveBrokers u))
  else ret None.

End OHLCUpdaterFactory.

(** ** Vocabulary of the properties *)

(** The tuple [request_cryptocompare] builds from one raw bar. *)
Definition bar_of_raw (r : RawBar) : Bar :=
  mkBar (fromtimestamp (raw_time r)) (raw_open r) (raw_high r) (raw_low r)
        (raw_close r).

(** The calendar day of a stitched bar: [bar[0].date()]. *)
Definition bar_day (b : Bar) : date := datetime_date (bar_0 b).

(** [n] consecutive days from [lo] on. *)
Definition day_range (lo : date) (n : nat) : list date :=
  map (fun i => lo + Z.of_nat i) (seq 0 n).

(** The vendor's daily points are stamped 00:00 GMT of their day. *)
Definition midnight (d : date) : Z := d * sec_per_day.

(** A page request of size [n] answers [n + 1] points, oldest first, one per
    day, the last one on the day of [toTs]. *)
Definition pages_oldest_first (env : Env) (fsym tsym : string) : Prop :=
  forall n ts, 0 <= n ->
    exists raw, histoday env fsym tsym n ts = Some raw /\
      map raw_time raw =
      map midnight (day_range (ts / sec_per_day - n) (S (Z.to_nat n))).

(** The same points, newest first. *)
Definition pages_newest_first (env : Env) (fsym tsym : string) : Prop :=
  forall n ts, 0 <= n ->
    exists raw, histoday env fsym tsym n ts = Some raw /\
      map raw_time raw =
      rev (map midnight (day_range (ts / sec_per_day - n) (S (Z.to_nat n)))).

Fixpoint ascending (l : list date) : Prop :=
  match l with
  | a :: (b :: _) as t => a < b /\ ascending t
  | _ => True
  end.

Fixpoint gap_free (l : list date) : Prop :=
  match l with
  | a :: (b :: _) as t => b = a + 1 /\ gap_free t
  | _ => True
  end.

Fixpoint ascendingb (l : list date) : bool :=
  match l with
  | a :: (b :: _) as t => (a <? b) && ascendingb t
  | _ => true
  end.

(** What the pagination property of the specification asks of the bars
    staged by a run. *)
Definition stitched_5000 (o : outcome CryptoCompareOHLC.t) : Prop :=
  exists self w bars,
    o = Ok self w /\ CryptoCompareOHLC.data self = Some bars /\
    Z.of_nat (List.length bars) = 5000 /\
    ascending (map bar_day bars) /\ gap_free (map bar_day bars) /\
    NoDup (map bar_day bars).

(** The bars a run has staged in [self.data]; none when it raised. *)
Definition staged (o : outcome CryptoCompareOHLC.t) : list Bar :=
  match o with
  | Ok self _ =>
      match CryptoCompareOHLC.data self with
      | Some bars => bars
      | None => []
      end
  | Raise _ _ => []
  end.

(** A bar whose four prices are all zero. *)
Definition all_zero (b : Bar) : Prop :=
  (bar_1 b == 0 /\ bar_2 b == 0 /\ bar_3 b == 0 /\ bar_4 b == 0)%Q.

Definition nonnegative (b : Bar) : Prop :=
  (0 <= bar_1 b /\ 0 <= bar_2 b /\ 0 <= bar_3 b /\ 0 <= bar_4 b)%Q.

(** The world after one recorded request. *)
Definition fetched (r : Request) (w : World) : World :=
  mkWorld (store w) (trace w ++ [Fetch r]).

(** Every exception [m] can end in satisfies [P]. *)
Definition only_raises {A} (P : exn -> Prop) (m : M A) : Prop :=
  forall w e w', m w = Raise e w' -> P e.

(** The exceptions other than the unbound local [limit]. *)
Definition not_unbound_limit (e : exn) : Prop := e <> UnboundLocalError "limit".

(** ** Concrete runs *)

Module Fixture.

Definition btcusd : Instrument :=
  mkInstrument "BTCUSD" "BTC" "USD" "dydx" "crypto" "Europe/London".

Definition nvda : Instrument :=
  mkInstrument "NVDA" "NVDA" "USD" "nasdaq" "stock" "America/New_York".

(** 2024-10-04 *)
Definition today0 : date := 20000.
Definition now0 : datetime := combine today0 12.

Definition flat (d : date) : RawBar := mkRawBar (midnight d) 1 1 1 1.

Definition page_oldest_first (limit ts : Z) : list RawBar :=
  map flat (day_range (ts / sec_per_day - limit) (S (Z.to_nat limit))).

Definition page_newest_first (limit ts : Z) : list RawBar :=
  rev (page_oldest_first limit ts).

Definition env_of (first : option Z)
    (pages : Z -> Z -> option (list RawBar))
    (bars : option (list IBBar)) : Env :=
  mkEnv today0 now0 [btcusd; nvda] first (fun _ _ => pages)
        (fun _ _ _ => bars) None (fun _ _ => true).

Definition env_oldest_first : Env :=
  env_of (Some 1279324800) (fun n ts => Some (page_oldest_first n ts)) None.

Definition env_newest_first : Env :=
  env_of (Some 1279324800) (fun n ts => Some (page_newest_first n ts)) None.

(** An upstream that answers no point at all; the vendor's data starts
    1000 days before [today0]. *)
Definition env_empty : Env :=
  env_of (Some (midnight 19000)) (fun _ _ => Some []) None.

Definition cc_btcusd : CryptoCompareOHLC.t :=
  CryptoCompareOHLC.mk "BTCUSD" None None btcusd None.

Definition cc_nvda : CryptoCompareOHLC.t :=
  CryptoCompareOHLC.mk "NVDA" None None nvda None.

Definition ib_nvda : IBOHLC.t := IBOHLC.mk "NVDA" None.

(** The window of 5000 days that ends on [today0], on either upstream. *)
Definition run_newest_first : outcome CryptoCompareOHLC.t :=
  CryptoCompareOHLC.get_ohlc_data env_newest_first cc_btcusd today0
    (Some (today0 - 5000)) (mkWorld [] []).

Definition run_oldest_first : outcome CryptoCompareOHLC.t :=
  CryptoCompareOHLC.get_ohlc_data env_oldest_first cc_btcusd today0
    (Some (today0 - 5000)) (mkWorld [] []).

Definition w_empty : World := mkWorld [] [].

Definition row_on (symbol : string) (d : date) : OHLC :=
  mkOHLC symbol (combine d 0) 1 1 1 1.

(** A store whose latest BTCUSD and NVDA bars are of [d]. *)
Definition w_latest (d : date) : World :=
  mkWorld [row_on "BTCUSD" (d - 1); row_on "NVDA" d; row_on "BTCUSD" d] [].

(** A first page of three all-zero bars and then a bar with positive
    prices. *)
Definition zero_raws : list RawBar :=
  [mkRawBar (midnight 18996) 0 0 0 0; mkRawBar (midnight 18997) 0 0 0 0;
   mkRawBar (midnight 18998) 0 0 0 0].
Definition positive_raw : RawBar := mkRawBar (midnight 19000) 2 3 1 2.

Definition zero_bars : list Bar := map bar_of_raw zero_raws.
Definition positive_bar : Bar := bar_of_raw positive_raw.

Definition env_genesis : Env :=
  env_of (Some (midnight 19996))
         (fun _ _ => Some (zero_raws ++ [positive_raw])) None.

Definition ib_bar (d : date) : IBBar :=
  mkIBBar 1 1 1 1 100 (d * sec_per_day * 1000).

Definition env_ib : Env :=
  env_of None (fun _ _ => None)
         (Some [ib_bar 19996; ib_bar 19997; ib_bar 19998; ib_bar 19999]).

End Fixture.

(** ** The brokerage exchange adapter (src/exchange_ib.py) *)

Module IBExchange.

Section Gateway.

(** [Position] is declared in [src/exchange.py], which is not part of the
    sources; only its [size] is read. [get_portfolio] is the gateway call
    [self.ib.get_portfolio()], an arbitrary computation. *)
Variable Position : Type.
Variable size : Position -> Q.
Variable Portfolio : Type.
Variable get_portfolio : M Portfolio.

(** The property [all_positions]: the loop over [client_positions] is
    commented out in the source, so the dictionary is returned empty. *)
Definition all_positions : M (list (string * Position)) :=
  client_positions <- get_portfolio ;;
  let all_positions : list (string * Position) := [] in
  ret all_positions.

(** [d[key]] on a dictionary kept as an association list. *)
Fixpoint getitem (d : list (string * Position)) (key : string) : M Position :=
  match d with
  | [] => raise (KeyError key)
  | (k, v) :: d' => if String.eqb k key then ret v else getitem d' key
  end.

(** [try: body except KeyError: handler] *)
Definition except_KeyError {A} (body handler : M A) : M A :=
  fun w => match body w with
           | Raise (KeyError _) w' => handler w'
           | o => o
           end.

Definition get_position (symbol : string) : M Q :=
  all_positions <- all_positions ;;
  except_KeyError (p <- getitem all_positions symbol ;; ret (size p))
                  (ret 0%Q).

End Gateway.

End IBExchange.

(** ** Effects of a run *)

(** [m] leaves the store alone and only adds requests to the trace, at most
    [n] of them. *)
Definition fetches_at_most {A} (n : nat) (m : M A) : Prop :=
  forall w,
    store (final_world (m w)) = store w /\
    exists rs, trace (final_world (m w)) = trace w ++ map Fetch rs /\
               (List.length rs <= n)%nat.

(** [m] leaves the store alone and only adds requests to the trace. *)
Definition fetch_only {A} (m : M A) : Prop :=
  forall w,
    store (final_world (m w)) = store w /\
    exists rs, trace (final_world (m w)) = trace w ++ map Fetch rs.

(** The calendar day of a stored row. *)
Definition ohlc_day (r : OHLC) : date := datetime_date (ohlc_date r).

(** ** Further concrete runs *)

Module Scenario.

(** An upstream whose every page is empty. *)
Definition env_no_points : Env :=
  Fixture.env_of (Some (midnight 19000)) (fun _ _ => Some []) None.

(** A brokerage gateway that answers no bar. *)
Definition env_ib_empty : Env :=
  Fixture.env_of None (fun _ _ => None) (Some []).

(** The brokerage environment of [Fixture.env_ib] with the time checker
    switched on and refusing. *)
Definition env_ib_gated : Env :=
  mkEnv Fixture.today0 Fixture.now0 [Fixture.btcusd; Fixture.nvda] None
        (fun _ _ _ _ => None)
        (fun _ _ _ => Some [Fixture.ib_bar 19996; Fixture.ib_bar 19997])
        (Some "1") (fun _ _ => false).

(** A brokerage updater that still holds the frame of an earlier call. *)
Definition ib_nvda_stale : IBOHLC.t :=
  IBOHLC.mk "NVDA" (Some [IBOHLC.row_of "NVDA" (Fixture.ib_bar 19990)]).

Definition all_zero_bars : list Bar :=
  Fixture.zero_bars ++ [mkBar (combine 18999 0) 0 0 0 0].

End Scenario.

(** * Properties *)

(** ** The monad *)

Lemma bind_Ok {A B} (m : M A) (k : A -> M B) w a w' :
  m w = Ok a w' -> bind m k w = k a w'.
Proof. unfold bind. intros ->. reflexivity. Qed.

Lemma bind_Raise {A B} (m : M A) (k : A -> M B) w e w' :
  m w = Raise e w' -> bind m k w = Raise e w'.
Proof. unfold bind. intros ->. reflexivity. Qed.

Lemma bind_inv_Raise {A B} (m : M A) (k : A -> M B) w e w' :
  bind m k w = Raise e w' ->
  m w = Raise e w' \/ exists a w1, m w = Ok a w1 /\ k a w1 = Raise e w'.
Proof.
  unfold bind. destruct (m w) as [a w1 | e1 w1]; intros H.
  - right. exists a, w1. split; [reflexivity | exact H].
  - left. injection H as -> ->. reflexivity.
Qed.

Lemma bind_inv_Ok {A B} (m : M A) (k : A -> M B) w b w' :
  bind m k w = Ok b w' -> exists a w1, m w = Ok a w1 /\ k a w1 = Ok b w'.
Proof.
  unfold bind. destruct (m w) as [a w1 | e1 w1]; intros H; [| discriminate H].
  exists a, w1. split; [reflexivity | exact H].
Qed.

Lemma http_Some {A} r (a : A) w : http r (Some a) w = Ok a (fetched r w).
Proof. reflexivity. Qed.

(** ** Leading-zero trimming *)

Module TrimFacts.
Import CryptoCompareOHLC.

(** Once [i] is bound it stays bound, and it indexes a row of the list. *)
Lemma enumerate_loop_bound l : forall idx j,
  exists i, enumerate_loop l idx (Some j) = Some i /\
            (i = j \/ (idx <= i < idx + List.length l)%nat).
Proof.
  induction l as [| b l IH]; intros idx j; cbn [enumerate_loop List.length].
  - exists j. split; [reflexivity | left; reflexivity].
  - destruct (sum_nonzero b).
    + exists idx. split; [reflexivity | right; lia].
    + destruct (IH (S idx) idx) as [i [E Hi]]. exists i. split; [exact E | right; lia].
Qed.

Lemma enumerate_loop_nonempty b l :
  exists i, enumerate_loop (b :: l) 0 None = Some i /\
            (i < List.length (b :: l))%nat.
Proof.
  cbn [enumerate_loop List.length]. destruct (sum_nonzero b).
  - exists 0%nat. split; [reflexivity | lia].
  - destruct (enumerate_loop_bound l 1 0) as [i [E Hi]].
    exists i. split; [exact E | lia].
Qed.

(** Rows whose prices sum to zero are passed over; the scan stops at the
    first row whose sum is not zero. *)
Lemma enumerate_loop_stops zeros b rest : forall idx i0,
  Forall (fun z => sum_nonzero z = false) zeros ->
  sum_nonzero b = true ->
  enumerate_loop (zeros ++ b :: rest) idx i0 = Some (idx + List.length zeros)%nat.
Proof.
  induction zeros as [| z zeros IH]; intros idx i0 Hz Hb;
    cbn [enumerate_loop app List.length].
  - rewrite Hb. f_equal. lia.
  - inversion Hz as [| ? ? Hz1 Hz2]; subst. rewrite Hz1.
    rewrite (IH (S idx) (Some idx) Hz2 Hb). f_equal. lia.
Qed.

Lemma all_zero_sum z : all_zero z -> sum_nonzero z = false.
Proof.
  intros [H1 [H2 [H3 H4]]]. unfold sum_nonzero, ohlc_sum.
  apply negb_false_iff, Qeq_bool_iff. rewrite H1, H2, H3, H4. reflexivity.
Qed.

Lemma nonnegative_sum b :
  nonnegative b -> ~ all_zero b -> sum_nonzero b = true.
Proof.
  intros [H1 [H2 [H3 H4]]] Hnz. unfold sum_nonzero, ohlc_sum.
  apply negb_true_iff. destruct (Qeq_bool _ 0) eqn:E; [| reflexivity].
  apply Qeq_bool_iff in E. exfalso. apply Hnz. unfold all_zero.
  repeat split; lra.
Qed.

Lemma skipn_app_length {A} (l1 l2 : list A) :
  skipn (List.length l1) (l1 ++ l2) = l2.
Proof. induction l1; [reflexivity | exact IHl1]. Qed.

Lemma strip_leading_zeros_stops zeros b rest w :
  Forall (fun z => sum_nonzero z = false) zeros ->
  sum_nonzero b = true ->
  strip_leading_zeros (zeros ++ b :: rest) w = Ok (b :: rest) w.
Proof.
  intros Hz Hb. unfold strip_leading_zeros.
  rewrite (enumerate_loop_stops zeros b rest 0 None Hz Hb).
  cbn [read_local plus]. unfold bind, ret. now rewrite skipn_app_length.
Qed.

End TrimFacts.

(** ** The day count [limit] *)

Module LimitFacts.
Import CryptoCompareOHLC.

Lemma set_api_limit_start env end_date d w :
  set_api_limit env end_date (Some d) w = Ok (Some (end_date - d)) w.
Proof. reflexivity. Qed.

Lemma set_api_limit_resolved env end_date first_ts w :
  data_available_from env = Some first_ts ->
  set_api_limit env end_date None w =
  Ok (Some (end_date - datetime_date (fromtimestamp first_ts)))
     (fetched GetBlockchainList w).
Proof.
  intros E. unfold set_api_limit. cbn [truthy is_None]. rewrite E. reflexivity.
Qed.

Lemma set_api_limit_failed env end_date w :
  data_available_from env = None ->
  set_api_limit env end_date None w =
  Raise (RequestError GetBlockchainList) (fetched GetBlockchainList w).
Proof.
  intros E. unfold set_api_limit. cbn [truthy is_None]. rewrite E. reflexivity.
Qed.

(** Whatever [start_date] is, the slot is bound when the assignments are
    over, unless the vendor lookup raised. *)
Lemma set_api_limit_cases env end_date start_date w :
  (exists limit w', set_api_limit env end_date start_date w = Ok (Some limit) w')
  \/ (exists w', set_api_limit env end_date start_date w =
                 Raise (RequestError GetBlockchainList) w').
Proof.
  destruct start_date as [d |].
  - left. eexists. eexists. apply set_api_limit_start.
  - destruct (data_available_from env) as [ts |] eqn:E.
    + left. eexists. eexists. apply (set_api_limit_resolved _ _ _ _ E).
    + right. eexists. apply (set_api_limit_failed _ _ _ E).
Qed.

Lemma get_ohlc_data_crypto env self end_date start_date w :
  vehicle (instrument self) = "crypto" ->
  get_ohlc_data env self end_date start_date w =
  (slot <- set_api_limit env end_date start_date ;;
   limit <- read_local "limit" slot ;;
   all_data <- fetch_pages env self limit end_date ;;
   all_data <- trim start_date all_data ;;
   ret (set_data self all_data)) w.
Proof. intros E. unfold get_ohlc_data. rewrite E. reflexivity. Qed.

End LimitFacts.

(** C9: the leading-zero trimming of a first-ever fetch is defined only on a
    non-empty list. On the empty list the loop never binds [i] and the slice
    [all_data[i:]] raises; on a non-empty list the step returns, and what it
    returns is a suffix of its input. The error is reachable through
    [get_ohlc_data], when the upstream answers no point. *)
Theorem leading_zero_trim_needs_nonempty :
  (forall w, CryptoCompareOHLC.strip_leading_zeros [] w =
             Raise (UnboundLocalError "i") w) /\
  (forall b l w, exists i pre,
     (i < List.length (b :: l))%nat /\
     b :: l = pre ++ skipn i (b :: l) /\
     CryptoCompareOHLC.strip_leading_zeros (b :: l) w = Ok (skipn i (b :: l)) w) /\
  (exists w', CryptoCompareOHLC.get_ohlc_data Fixture.env_empty
                Fixture.cc_btcusd Fixture.today0 None Fixture.w_empty =
              Raise (UnboundLocalError "i") w').
Proof.
  split; [| split].
  - intros w. reflexivity.
  - intros b l w.
    destruct (TrimFacts.enumerate_loop_nonempty b l) as [i [E Hi]].
    exists i, (firstn i (b :: l)). split; [exact Hi |]. split.
    + symmetry. apply firstn_skipn.
    + unfold CryptoCompareOHLC.strip_leading_zeros. rewrite E. reflexivity.
  - eexists. vm_compute. reflexivity.
Qed.

(** C8: on an instrument whose vehicle is not "crypto", [get_ohlc_data] of
    the crypto-vendor updater returns at once, for every pair of dates: the
    world is unchanged (no request is recorded) and [self.data] is left as
    it was, so nothing is staged. *)
Theorem non_crypto_returns_immediately env self end_date start_date w :
  vehicle (CryptoCompareOHLC.instrument self) <> "crypto" ->
  CryptoCompareOHLC.get_ohlc_data env self end_date start_date w = Ok self w.
Proof.
  intros H. unfold CryptoCompareOHLC.get_ohlc_data.
  destruct (String.eqb_spec (vehicle (CryptoCompareOHLC.instrument self)) "crypto")
    as [E | _]; [contradiction | reflexivity].
Qed.

Lemma non_crypto_returns_immediately_witness :
  CryptoCompareOHLC.get_ohlc_data Fixture.env_oldest_first Fixture.cc_nvda
    Fixture.today0 (Some 19000) Fixture.w_empty
  = Ok Fixture.cc_nvda Fixture.w_empty
  /\ CryptoCompareOHLC.data Fixture.cc_nvda = None.
Proof.
  split; [| reflexivity].
  apply (non_crypto_returns_immediately Fixture.env_oldest_first Fixture.cc_nvda
           Fixture.today0 (Some 19000) Fixture.w_empty).
  vm_compute. discriminate.
Defined.

(** ** First-ever fetch *)

(** C3: on a first-ever fetch ([start_date] unset) whose stitched data is
    [k] bars with all of open, high, low and close equal to zero followed by
    a bar whose four prices are not all zero, [get_ohlc_data] drops exactly
    those [k] bars: it stages that bar and every later one. The scan tests
    the sum of the four prices; prices of a feed are never negative, and
    then the sum is zero only when all four are. *)
Theorem first_fetch_drops_leading_zero_bars
    env self end_date first_ts w' zeros b rest w :
  vehicle (CryptoCompareOHLC.instrument self) = "crypto" ->
  data_available_from env = Some first_ts ->
  CryptoCompareOHLC.fetch_pages env self
    (end_date - datetime_date (fromtimestamp first_ts)) end_date
    (fetched GetBlockchainList w) = Ok (zeros ++ b :: rest) w' ->
  Forall all_zero zeros ->
  nonnegative b ->
  ~ all_zero b ->
  CryptoCompareOHLC.get_ohlc_data env self end_date None w =
  Ok (CryptoCompareOHLC.set_data self (b :: rest)) w'.
Proof.
  intros Hv Hfirst Hfetch Hz Hpos Hnz.
  pose proof (TrimFacts.nonnegative_sum b Hpos Hnz) as Hb.
  rewrite (LimitFacts.get_ohlc_data_crypto _ _ _ _ _ Hv).
  rewrite (bind_Ok _ _ _ _ _ (LimitFacts.set_api_limit_resolved _ _ _ _ Hfirst)).
  cbn [read_local]. unfold ret at 1.
  rewrite (bind_Ok _ _ _ _ _ eq_refl).
  rewrite (bind_Ok _ _ _ _ _ Hfetch).
  cbn [CryptoCompareOHLC.trim truthy negb].
  assert (Hz' : Forall (fun z => CryptoCompareOHLC.sum_nonzero z = false) zeros).
  { eapply Forall_impl; [| exact Hz]. intros z. apply TrimFacts.all_zero_sum. }
  rewrite (bind_Ok _ _ _ _ _ (TrimFacts.strip_leading_zeros_stops _ _ _ _ Hz' Hb)).
  reflexivity.
Qed.

Lemma first_fetch_drops_leading_zero_bars_witness :
  exists w',
    CryptoCompareOHLC.get_ohlc_data Fixture.env_genesis Fixture.cc_btcusd
      Fixture.today0 None Fixture.w_empty =
    Ok (CryptoCompareOHLC.set_data Fixture.cc_btcusd [Fixture.positive_bar]) w'.
Proof.
  eexists.
  apply (first_fetch_drops_leading_zero_bars Fixture.env_genesis
           Fixture.cc_btcusd Fixture.today0 (midnight 19996) _
           Fixture.zero_bars Fixture.positive_bar [] Fixture.w_empty).
  - reflexivity.
  - reflexivity.
  - vm_compute. reflexivity.
  - repeat constructor.
  - repeat split; vm_compute; discriminate.
  - intros [H _]. vm_compute in H. discriminate.
Defined.

(** ** Which exceptions a run can end in *)

Module RaiseFacts.
Import CryptoCompareOHLC.

Lemma only_raises_ret {A} P (a : A) : only_raises P (ret a).
Proof. intros w e w' H. discriminate H. Qed.

Lemma only_raises_raise {A} (P : exn -> Prop) e : P e -> only_raises P (@raise A e).
Proof. intros HP w e' w' H. injection H as <- _. exact HP. Qed.

Lemma only_raises_bind {A B} P (m : M A) (k : A -> M B) :
  only_raises P m -> (forall a, only_raises P (k a)) ->
  only_raises P (bind m k).
Proof.
  intros Hm Hk w e w' H.
  destruct (bind_inv_Raise _ _ _ _ _ H) as [H1 | [a [w1 [_ H2]]]].
  - exact (Hm _ _ _ H1).
  - exact (Hk a _ _ _ H2).
Qed.

Lemma only_raises_http {A} (P : exn -> Prop) r (answer : option A) :
  P (RequestError r) -> only_raises P (http r answer).
Proof.
  intros HP. unfold http. apply only_raises_bind.
  - intros w e w' H. discriminate H.
  - intros _. destruct answer; [apply only_raises_ret | apply only_raises_raise, HP].
Qed.

Create HintDb raises.
#[local] Hint Resolve only_raises_ret only_raises_raise only_raises_http : raises.

Lemma request_cryptocompare_raises env self limit to_date :
  only_raises not_unbound_limit (request_cryptocompare env self limit to_date).
Proof.
  unfold request_cryptocompare. apply only_raises_bind.
  - apply only_raises_http. discriminate.
  - intros raw. apply only_raises_ret.
Qed.

Lemma pages_loop_raises env self fuel : forall limit to_date all_data,
  only_raises not_unbound_limit (pages_loop env self fuel limit to_date all_data).
Proof.
  induction fuel as [| fuel IH]; intros limit to_date all_data;
    cbn [pages_loop]; destruct (limit >? 2000); auto with raises.
  - apply only_raises_raise. discriminate.
  - apply only_raises_bind; [apply request_cryptocompare_raises |].
    intros data. apply only_raises_bind; [| intros d0; apply IH].
    destruct data; cbn [first_row]; auto with raises.
    apply only_raises_raise. discriminate.
Qed.

Lemma fetch_pages_raises env self limit end_date :
  only_raises not_unbound_limit (fetch_pages env self limit end_date).
Proof.
  unfold fetch_pages. destruct (limit >? 2000).
  - apply only_raises_bind; [apply pages_loop_raises |].
    intros [[limit' to_date] all_data]. destruct (limit' >? 0); auto with raises.
    apply only_raises_bind; [apply request_cryptocompare_raises |].
    intros data. apply only_raises_ret.
  - apply request_cryptocompare_raises.
Qed.

Lemma trim_raises start_date all_data :
  only_raises not_unbound_limit (trim start_date all_data).
Proof.
  unfold trim. destruct (negb (truthy start_date)); auto with raises.
  unfold strip_leading_zeros. apply only_raises_bind.
  - destruct (enumerate_loop all_data 0 None); cbn [read_local]; auto with raises.
    apply only_raises_raise. discriminate.
  - intros i. apply only_raises_ret.
Qed.

Lemma get_ohlc_data_raises env self end_date start_date :
  only_raises not_unbound_limit (get_ohlc_data env self end_date start_date).
Proof.
  intros w e w' H. unfold get_ohlc_data in H.
  destruct (negb (String.eqb (vehicle (instrument self)) "crypto"));
    [discriminate H |].
  destruct (LimitFacts.set_api_limit_cases env end_date start_date w)
    as [[limit [w1 E]] | [w1 E]].
  - rewrite (bind_Ok _ _ _ _ _ E) in H. cbn [read_local] in H.
    rewrite (bind_Ok _ _ _ _ _ eq_refl) in H.
    revert H. apply only_raises_bind; [apply fetch_pages_raises |].
    intros all_data. apply only_raises_bind; [apply trim_raises |].
    intros all_data'. apply only_raises_ret.
  - rewrite (bind_Raise _ _ _ _ _ E) in H. injection H as <- _. discriminate.
Qed.

End RaiseFacts.

(** C7: the specification's open question asks for a run of [get_ohlc_data]
    that reads [limit] while it is unbound. There is none: the two guards
    [if start_date] and [if start_date is None] are complementary on a date
    or [None]. *)
Lemma no_run_reads_unbound_limit :
  ~ exists env self end_date start_date w w',
      vehicle (CryptoCompareOHLC.instrument self) = "crypto" /\
      CryptoCompareOHLC.get_ohlc_data env self end_date start_date w =
      Raise (UnboundLocalError "limit") w'.
Proof.
  intros [env [self [end_date [start_date [w [w' [_ H]]]]]]].
  exact (RaiseFacts.get_ohlc_data_raises _ _ _ _ _ _ _ H eq_refl).
Qed.

(** C7 (amended): on every input of [get_ohlc_data] (a date or [None] as
    [start_date]) the local [limit] is bound when the page-size comparison
    reads it: to [end_date - start_date] when [start_date] is supplied, to
    [end_date] minus the vendor's first date when it is [None] and the lookup
    answers; when the lookup fails its exception ends the run before the
    comparison. No run ends in the unbound-local error of [limit]. *)
Theorem limit_is_bound_at_comparison env end_date start_date w :
  (forall d, start_date = Some d ->
     CryptoCompareOHLC.set_api_limit env end_date start_date w =
     Ok (Some (end_date - d)) w) /\
  (forall first_ts, start_date = None -> data_available_from env = Some first_ts ->
     CryptoCompareOHLC.set_api_limit env end_date start_date w =
     Ok (Some (end_date - datetime_date (fromtimestamp first_ts)))
        (fetched GetBlockchainList w)) /\
  (start_date = None -> data_available_from env = None ->
     CryptoCompareOHLC.set_api_limit env end_date start_date w =
     Raise (RequestError GetBlockchainList) (fetched GetBlockchainList w)) /\
  (forall self w',
     CryptoCompareOHLC.get_ohlc_data env self end_date start_date w <>
     Raise (UnboundLocalError "limit") w').
Proof.
  split; [| split; [| split]].
  - intros d ->. apply LimitFacts.set_api_limit_start.
  - intros ts -> E. apply (LimitFacts.set_api_limit_resolved _ _ _ _ E).
  - intros -> E. apply (LimitFacts.set_api_limit_failed _ _ _ E).
  - intros self w' H.
    exact (RaiseFacts.get_ohlc_data_raises _ _ _ _ _ _ _ H eq_refl).
Qed.

Lemma limit_is_bound_at_comparison_witness :
  CryptoCompareOHLC.set_api_limit Fixture.env_oldest_first Fixture.today0
    (Some 15000) Fixture.w_empty = Ok (Some 5000) Fixture.w_empty
  /\ CryptoCompareOHLC.set_api_limit Fixture.env_oldest_first Fixture.today0
       None Fixture.w_empty =
     Ok (Some 5193) (fetched GetBlockchainList Fixture.w_empty).
Proof.
  pose proof (limit_is_bound_at_comparison Fixture.env_oldest_first
                Fixture.today0 (Some 15000) Fixture.w_empty) as [H1 _].
  pose proof (limit_is_bound_at_comparison Fixture.env_oldest_first
                Fixture.today0 None Fixture.w_empty) as [_ [H2 _]].
  split.
  - exact (H1 15000 eq_refl).
  - exact (H2 1279324800 eq_refl eq_refl).
Defined.

(** ** The factory *)

(** C6: [create_updater] compares the lower-cased source name. A name whose
    lower-case form is "crypto-compare" yields the crypto-vendor updater (on
    the instrument the registry holds for the symbol), one whose lower-case
    form is "interactive-brokers" yields the brokerage updater, and on every
    other name the call returns [None]: no instance, and no exception. *)
Theorem create_updater_by_lowercase_name env name symbol w :
  (OHLCUpdaterFactory.lower name = "crypto-compare" ->
   forall i,
     find (fun i => String.eqb (symbol_of i) symbol) (instrument_table env) = Some i ->
     OHLCUpdaterFactory.create_updater env name symbol w =
     Ok (Some (OHLCUpdaterFactory.CryptoCompare
                 (CryptoCompareOHLC.mk symbol None None i None))) w) /\
  (OHLCUpdaterFactory.lower name = "interactive-brokers" ->
   OHLCUpdaterFactory.create_updater env name symbol w =
   Ok (Some (OHLCUpdaterFactory.InteractiveBrokers (IBOHLC.mk symbol None))) w) /\
  (OHLCUpdaterFactory.lower name <> "crypto-compare" ->
   OHLCUpdaterFactory.lower name <> "interactive-brokers" ->
   OHLCUpdaterFactory.create_updater env name symbol w = Ok None w).
Proof.
  unfold OHLCUpdaterFactory.create_updater. split; [| split].
  - intros -> i Hi. cbn [String.eqb Ascii.eqb Bool.eqb].
    unfold CryptoCompareOHLC.init, get_instrument, bind. rewrite Hi. reflexivity.
  - intros ->. reflexivity.
  - intros H1 H2.
    destruct (String.eqb_spec (OHLCUpdaterFactory.lower name) "crypto-compare");
      [contradiction |].
    destruct (String.eqb_spec (OHLCUpdaterFactory.lower name) "interactive-brokers");
      [contradiction | reflexivity].
Qed.

Lemma create_updater_by_lowercase_name_witness :
  OHLCUpdaterFactory.create_updater Fixture.env_oldest_first "Crypto-COMPARE"
    "BTCUSD" Fixture.w_empty =
  Ok (Some (OHLCUpdaterFactory.CryptoCompare Fixture.cc_btcusd)) Fixture.w_empty
  /\ OHLCUpdaterFactory.create_updater Fixture.env_oldest_first
       "INTERACTIVE-brokers" "NVDA" Fixture.w_empty =
     Ok (Some (OHLCUpdaterFactory.InteractiveBrokers Fixture.ib_nvda)) Fixture.w_empty
  /\ OHLCUpdaterFactory.create_updater Fixture.env_oldest_first "yahoo"
       "BTCUSD" Fixture.w_empty = Ok None Fixture.w_empty.
Proof.
  split; [| split].
  - apply (proj1 (create_updater_by_lowercase_name Fixture.env_oldest_first
                    "Crypto-COMPARE" "BTCUSD" Fixture.w_empty));
      reflexivity.
  - apply (proj1 (proj2 (create_updater_by_lowercase_name Fixture.env_oldest_first
                           "INTERACTIVE-brokers" "NVDA" Fixture.w_empty)));
      reflexivity.
  - apply (proj2 (proj2 (create_updater_by_lowercase_name Fixture.env_oldest_first
                           "yahoo" "BTCUSD" Fixture.w_empty)));
      vm_compute; discriminate.
Defined.

(** ** The brokerage filter *)

Module FilterFacts.
Import IBOHLC.

Lemma filter_twice {A} (f g : A -> bool) l :
  filter g (filter f l) = filter (fun x => f x && g x) l.
Proof.
  induction l as [| x l IH]; [reflexivity |]. cbn [filter].
  destruct (f x); cbn [filter andb]; [destruct (g x) |]; now rewrite IH.
Qed.

Lemma filter_window_both s e rows :
  filter_window (Some s) (Some e) rows =
  filter (fun r => (s <? df_date r) && (df_date r <? e)) rows.
Proof. unfold filter_window. apply filter_twice. Qed.

Lemma gate_open_run env self start_date end_date w :
  time_checker_on env = false \/ time_check env (symbol self) "forecast" = true ->
  get_ohlc_data env self start_date end_date w =
  fetch_and_filter env self start_date end_date w.
Proof.
  unfold get_ohlc_data. intros [-> | ->]; [reflexivity |].
  destruct (time_checker_on env); reflexivity.
Qed.

End FilterFacts.

(** C5: the client-side filter of the brokerage updater keeps exactly the
    rows dated strictly after [start_date] and strictly before [end_date].
    On four fetched bars stamped [day0 < day1 < day2 < day3] and the window
    from [day0] to [day2], the frame staged by [get_ohlc_data] is the single
    row of [day1]. *)
Theorem brokerage_filter_is_strict env self b0 b1 b2 b3 w :
  IBOHLC.time_checker_on env = false \/
    time_check env (IBOHLC.symbol self) "forecast" = true ->
  get_bars env (IBOHLC.symbol self) "5y" "1d" = Some [b0; b1; b2; b3] ->
  ib_t b0 < ib_t b1 < ib_t b2 /\ ib_t b2 < ib_t b3 ->
  (forall s e rows r,
     In r (IBOHLC.filter_window (Some s) (Some e) rows) <->
     In r rows /\ s < df_date r < e) /\
  IBOHLC.get_ohlc_data env self (Some (to_datetime_ms (ib_t b0)))
    (Some (to_datetime_ms (ib_t b2))) w =
  Ok (IBOHLC.mk (IBOHLC.symbol self) (Some [IBOHLC.row_of (IBOHLC.symbol self) b1]))
     (fetched (GetBars (IBOHLC.symbol self) "5y" "1d") w).
Proof.
  intros Hgate Hbars Ht. split.
  - intros s e rows r. rewrite FilterFacts.filter_window_both, filter_In.
    rewrite andb_true_iff, !Z.ltb_lt. tauto.
  - rewrite (FilterFacts.gate_open_run _ _ _ _ _ Hgate).
    unfold IBOHLC.fetch_and_filter. rewrite Hbars.
    rewrite (bind_Ok _ _ _ _ _ (http_Some _ _ _)).
    cbn [IBOHLC.data_frame map]. unfold ret at 1.
    rewrite (bind_Ok _ _ _ _ _ eq_refl).
    rewrite FilterFacts.filter_window_both. cbn [filter IBOHLC.row_of df_date].
    unfold to_datetime_ms.
    replace (ib_t b0 * 1000 <? ib_t b0 * 1000) with false
      by (symmetry; apply Z.ltb_ge; lia).
    replace (ib_t b0 * 1000 <? ib_t b1 * 1000) with true
      by (symmetry; apply Z.ltb_lt; lia).
    replace (ib_t b1 * 1000 <? ib_t b2 * 1000) with true
      by (symmetry; apply Z.ltb_lt; lia).
    replace (ib_t b2 * 1000 <? ib_t b2 * 1000) with false
      by (symmetry; apply Z.ltb_ge; lia).
    replace (ib_t b3 * 1000 <? ib_t b2 * 1000) with false
      by (symmetry; apply Z.ltb_ge; lia).
    cbn [andb]. rewrite !andb_false_r. reflexivity.
Qed.

Lemma brokerage_filter_is_strict_witness :
  IBOHLC.get_ohlc_data Fixture.env_ib Fixture.ib_nvda
    (Some (combine 19996 0)) (Some (combine 19998 0)) Fixture.w_empty =
  Ok (IBOHLC.mk "NVDA" (Some [IBOHLC.row_of "NVDA" (Fixture.ib_bar 19997)]))
     (fetched (GetBars "NVDA" "5y" "1d") Fixture.w_empty).
Proof.
  apply (proj2 (brokerage_filter_is_strict Fixture.env_ib Fixture.ib_nvda
                  (Fixture.ib_bar 19996) (Fixture.ib_bar 19997)
                  (Fixture.ib_bar 19998) (Fixture.ib_bar 19999)
                  Fixture.w_empty (or_introl eq_refl) eq_refl
                  ltac:(vm_compute; repeat split; reflexivity))).
Defined.

(** ** An instrument that is already up to date *)

(** C4: when the latest stored bar of the instrument is dated today,
    [update_ohlc_data] of either updater returns with the world as it found
    it: no request is recorded, nothing is written, the store is the same,
    and the updater itself is unchanged. *)
Theorem up_to_date_sync_is_noop env symbol latest w :
  get_latest_record symbol w = Ok (Some latest) w ->
  datetime_date (ohlc_date latest) = today env ->
  (forall self, CryptoCompareOHLC.symbol self = symbol ->
     CryptoCompareOHLC.update_ohlc_data env self w = Ok self w) /\
  (forall self, IBOHLC.symbol self = symbol ->
     IBOHLC.update_ohlc_data env self w = Ok self w).
Proof.
  intros Hlatest Hdate. split; intros self <-.
  - unfold CryptoCompareOHLC.update_ohlc_data.
    rewrite (bind_Ok _ _ _ _ _ Hlatest), Hdate.
    replace (today env =? today env - 1) with false
      by (symmetry; apply Z.eqb_neq; lia).
    rewrite Z.eqb_refl. reflexivity.
  - unfold IBOHLC.update_ohlc_data.
    rewrite (bind_Ok _ _ _ _ _ Hlatest), Hdate, Z.eqb_refl. reflexivity.
Qed.

Lemma up_to_date_sync_is_noop_witness :
  CryptoCompareOHLC.update_ohlc_data Fixture.env_oldest_first Fixture.cc_btcusd
    (Fixture.w_latest Fixture.today0) =
  Ok Fixture.cc_btcusd (Fixture.w_latest Fixture.today0)
  /\ IBOHLC.update_ohlc_data Fixture.env_ib Fixture.ib_nvda
       (Fixture.w_latest Fixture.today0) =
     Ok Fixture.ib_nvda (Fixture.w_latest Fixture.today0).
Proof.
  split.
  - apply (proj1 (up_to_date_sync_is_noop Fixture.env_oldest_first "BTCUSD"
                    (Fixture.row_on "BTCUSD" Fixture.today0)
                    (Fixture.w_latest Fixture.today0) eq_refl eq_refl)).
    reflexivity.
  - apply (proj2 (up_to_date_sync_is_noop Fixture.env_ib "NVDA"
                    (Fixture.row_on "NVDA" Fixture.today0)
                    (Fixture.w_latest Fixture.today0) eq_refl eq_refl)).
    reflexivity.
Defined.

(** ** The brokerage lookback *)

Module LookbackFacts.
Import IBOHLC.

Lemma filter_length {A} (f : A -> bool) l :
  (List.length (filter f l) <= List.length l)%nat.
Proof.
  induction l as [| x l IH]; [apply le_n |]. cbn [filter].
  destruct (f x); cbn [List.length]; lia.
Qed.

Lemma filter_window_length start_date end_date rows :
  (List.length (filter_window start_date end_date rows) <= List.length rows)%nat.
Proof.
  unfold filter_window. destruct start_date as [s |], end_date as [e |];
    try apply le_n; try apply filter_length.
  etransitivity; apply filter_length.
Qed.

(** The whole of [fetch_and_filter], by the answer of the one request. *)
Lemma fetch_and_filter_run env self start_date end_date w :
  fetch_and_filter env self start_date end_date w =
  let r := GetBars (symbol self) "5y" "1d" in
  match get_bars env (symbol self) "5y" "1d" with
  | None => Raise (RequestError r) (fetched r w)
  | Some [] => Raise (KeyError "t") (fetched r w)
  | Some bars =>
      match filter_window start_date end_date (map (row_of (symbol self)) bars) with
      | [] => Ok self (fetched r w)
      | rows => Ok (mk (symbol self) (Some rows)) (fetched r w)
      end
  end.
Proof.
  unfold fetch_and_filter.
  destruct (get_bars env (symbol self) "5y" "1d") as [[| b bars] |];
    try reflexivity.
  rewrite (bind_Ok _ _ _ _ _ (http_Some _ _ _)).
  cbn [data_frame]. unfold ret at 1. rewrite (bind_Ok _ _ _ _ _ eq_refl).
  destruct (filter_window _ _ _); reflexivity.
Qed.

Lemma fetch_and_filter_world env self start_date end_date w :
  final_world (fetch_and_filter env self start_date end_date w) =
  fetched (GetBars (symbol self) "5y" "1d") w.
Proof.
  rewrite fetch_and_filter_run. cbv zeta.
  destruct (get_bars env (symbol self) "5y" "1d") as [[| b bars] |];
    try reflexivity.
  destruct (filter_window _ _ _); reflexivity.
Qed.

Lemma get_ohlc_data_world env self start_date end_date w :
  final_world (get_ohlc_data env self start_date end_date w) =
  if time_checker_on env && negb (time_check env (symbol self) "forecast")
  then w else fetched (GetBars (symbol self) "5y" "1d") w.
Proof.
  unfold get_ohlc_data.
  destruct (time_checker_on env); cbn [andb];
    [destruct (time_check env (symbol self) "forecast"); cbn [negb] |];
    try reflexivity; apply fetch_and_filter_world.
Qed.

Lemma get_ohlc_data_staged env self start_date end_date w self' w' rows :
  get_ohlc_data env self start_date end_date w = Ok self' w' ->
  df self' = Some rows ->
  df self = Some rows \/
  exists bars,
    get_bars env (symbol self) "5y" "1d" = Some bars /\
    rows = filter_window start_date end_date (map (row_of (symbol self)) bars).
Proof.
  unfold get_ohlc_data. intros H Hrows.
  assert (Hf : fetch_and_filter env self start_date end_date w = Ok self' w' ->
               df self = Some rows \/
               exists bars,
                 get_bars env (symbol self) "5y" "1d" = Some bars /\
                 rows = filter_window start_date end_date
                          (map (row_of (symbol self)) bars)).
  { clear H. rewrite fetch_and_filter_run. cbv zeta.
    destruct (get_bars env (symbol self) "5y" "1d") as [[| b bars] |];
      try discriminate.
    destruct (filter_window _ _ _) as [| r rs] eqn:E; intros H;
      injection H as <- _.
    - left. exact Hrows.
    - right. exists (b :: bars). split; [reflexivity |].
      cbn [df] in Hrows. injection Hrows as <-. symmetry. exact E. }
  destruct (time_checker_on env); [| exact (Hf H)].
  destruct (negb (time_check env (symbol self) "forecast")); [| exact (Hf H)].
  injection H as <- _. left. exact Hrows.
Qed.

End LookbackFacts.

(** ** Time arithmetic *)

Module TimeFacts.

Lemma toTs_eq d : CryptoCompareOHLC.toTs d = d * sec_per_day + 21600.
Proof.
  unfold CryptoCompareOHLC.toTs, int_timestamp, combine, usec_per_day.
  replace (d * (sec_per_day * usec_per_sec) + 6 * 3600 * usec_per_sec)
    with ((d * sec_per_day + 21600) * usec_per_sec) by ring.
  apply Z.quot_mul. discriminate.
Qed.

(** The request stamped 06:00 of a day falls on that day. *)
Lemma toTs_day d : CryptoCompareOHLC.toTs d / sec_per_day = d.
Proof.
  rewrite toTs_eq. rewrite Z.add_comm, Z.div_add by discriminate.
  reflexivity.
Qed.

Lemma bar_day_of_raw r : bar_day (bar_of_raw r) = raw_time r / sec_per_day.
Proof.
  unfold bar_day, bar_of_raw, datetime_date, fromtimestamp, usec_per_day.
  cbn [bar_0]. apply Z.div_mul_cancel_r; discriminate.
Qed.

Lemma midnight_day d : midnight d / sec_per_day = d.
Proof. unfold midnight. apply Z.div_mul. discriminate. Qed.

End TimeFacts.

(** ** One page *)

Module PageFacts.
Import CryptoCompareOHLC.

Lemma zip5_map {A} (f0 : A -> datetime) (f1 f2 f3 f4 : A -> Q) l :
  zip5 (map f0 l) (map f1 l) (map f2 l) (map f3 l) (map f4 l) =
  map (fun x => mkBar (f0 x) (f1 x) (f2 x) (f3 x) (f4 x)) l.
Proof. induction l as [| x l IH]; [reflexivity |]. cbn [map zip5]. now rewrite IH. Qed.

(** The double reversal hands the points back in the order of the answer. *)
Lemma request_cryptocompare_Ok env self limit to_date raw w :
  histoday env (base_currency (instrument self))
    (quote_currency (instrument self)) limit (toTs to_date) = Some raw ->
  request_cryptocompare env self limit to_date w =
  Ok (map bar_of_raw raw)
     (fetched (GetHistoday (base_currency (instrument self))
                 (quote_currency (instrument self)) limit (toTs to_date)) w).
Proof.
  intros E. unfold request_cryptocompare. rewrite E.
  rewrite (bind_Ok _ _ _ _ _ (http_Some _ _ _)).
  rewrite <- !map_rev, rev_involutive, zip5_map. reflexivity.
Qed.

Lemma fetch_pages_single env self limit end_date :
  limit <= 2000 ->
  fetch_pages env self limit end_date =
  request_cryptocompare env self limit end_date.
Proof.
  intros H. unfold fetch_pages.
  replace (limit >? 2000) with false; [reflexivity |].
  symmetry. rewrite Z.gtb_ltb. apply Z.ltb_ge. exact H.
Qed.

End PageFacts.

(** ** The latest bar is from yesterday *)

(** C2: when the latest stored bar of a crypto instrument is dated
    yesterday, [update_ohlc_data] asks for a window of one day ending today
    (one request, of size 1, stamped today). The upstream answers two
    points, of yesterday and of today; the first is the overlap and is
    trimmed, and exactly one row, dated today, is appended to the store. *)
Theorem yesterday_sync_appends_today env self latest y t w :
  vehicle (CryptoCompareOHLC.instrument self) = "crypto" ->
  get_latest_record (CryptoCompareOHLC.symbol self) w = Ok (Some latest) w ->
  datetime_date (ohlc_date latest) = today env - 1 ->
  histoday env (base_currency (CryptoCompareOHLC.instrument self))
    (quote_currency (CryptoCompareOHLC.instrument self)) 1
    (CryptoCompareOHLC.toTs (today env)) = Some [y; t] ->
  map (fun r => raw_time r / sec_per_day) [y; t] = [today env - 1; today env] ->
  let row := CryptoCompareOHLC.record_of self (bar_of_raw t) in
  CryptoCompareOHLC.update_ohlc_data env self w =
  Ok (CryptoCompareOHLC.set_data self [bar_of_raw t])
     (mkWorld (store w ++ [row])
        (trace w ++
         [Fetch (GetHistoday (base_currency (CryptoCompareOHLC.instrument self))
                   (quote_currency (CryptoCompareOHLC.instrument self)) 1
                   (CryptoCompareOHLC.toTs (today env)));
          Write [row]]))
  /\ datetime_date (ohlc_date row) = today env.
Proof.
  intros Hv Hlatest Hdate Hpage Hdays row. split.
  - assert (Hget :
      CryptoCompareOHLC.get_ohlc_data env self (today env) (Some (today env - 1)) w =
      Ok (CryptoCompareOHLC.set_data self [bar_of_raw t])
         (fetched (GetHistoday (base_currency (CryptoCompareOHLC.instrument self))
                     (quote_currency (CryptoCompareOHLC.instrument self)) 1
                     (CryptoCompareOHLC.toTs (today env))) w)).
    { rewrite (LimitFacts.get_ohlc_data_crypto _ _ _ _ _ Hv).
      rewrite (bind_Ok _ _ _ _ _ (LimitFacts.set_api_limit_start _ _ _ _)).
      replace (today env - (today env - 1)) with 1 by lia.
      cbn [read_local]. unfold ret at 1. rewrite (bind_Ok _ _ _ _ _ eq_refl).
      rewrite PageFacts.fetch_pages_single by lia.
      rewrite (bind_Ok _ _ _ _ _
                 (PageFacts.request_cryptocompare_Ok _ _ _ _ _ _ Hpage)).
      reflexivity. }
    unfold CryptoCompareOHLC.update_ohlc_data.
    rewrite (bind_Ok _ _ _ _ _ Hlatest), Hdate, Z.eqb_refl.
    rewrite (bind_Ok _ _ _ _ _ Hget).
    unfold CryptoCompareOHLC.insert_ohlc_data, bind, fetched. cbn.
    rewrite <- app_assoc. reflexivity.
  - unfold row. cbn [CryptoCompareOHLC.record_of ohlc_date].
    change (datetime_date (bar_0 (bar_of_raw t))) with (bar_day (bar_of_raw t)).
    rewrite TimeFacts.bar_day_of_raw. now injection Hdays.
Qed.

Lemma yesterday_sync_appends_today_witness :
  store (final_world
           (CryptoCompareOHLC.update_ohlc_data Fixture.env_oldest_first
              Fixture.cc_btcusd (Fixture.w_latest (Fixture.today0 - 1)))) =
  store (Fixture.w_latest (Fixture.today0 - 1)) ++
  [Fixture.row_on "BTCUSD" Fixture.today0].
Proof.
  rewrite (proj1 (yesterday_sync_appends_today Fixture.env_oldest_first
                    Fixture.cc_btcusd
                    (Fixture.row_on "BTCUSD" (Fixture.today0 - 1))
                    (Fixture.flat (Fixture.today0 - 1))
                    (Fixture.flat Fixture.today0)
                    (Fixture.w_latest (Fixture.today0 - 1))
                    eq_refl eq_refl eq_refl eq_refl eq_refl)).
  reflexivity.
Defined.

(** ** Stitching the pages *)

Module StitchFacts.
Import CryptoCompareOHLC.

Lemma day_range_length lo n : List.length (day_range lo n) = n.
Proof. unfold day_range. now rewrite length_map, length_seq. Qed.

Lemma day_range_S lo n : day_range lo (S n) = lo :: day_range (lo + 1) n.
Proof.
  unfold day_range. cbn [seq map]. f_equal; [lia |].
  rewrite <- seq_shift, map_map. apply map_ext. intros i. lia.
Qed.

Lemma day_range_app lo n m :
  day_range lo n ++ day_range (lo + Z.of_nat n) m = day_range lo (n + m).
Proof.
  revert lo. induction n as [| n IH]; intros lo.
  - cbn [plus]. rewrite Z.add_0_r. reflexivity.
  - cbn [plus]. rewrite !day_range_S. cbn [app]. f_equal.
    rewrite <- IH. f_equal. f_equal. lia.
Qed.

Lemma ascending_day_range n : forall lo, ascending (day_range lo n).
Proof.
  induction n as [| n IH]; intros lo; [exact I |].
  rewrite day_range_S. destruct n as [| n]; [exact I |].
  specialize (IH (lo + 1)). rewrite day_range_S in IH |- *.
  split; [lia | exact IH].
Qed.

Lemma gap_free_day_range n : forall lo, gap_free (day_range lo n).
Proof.
  induction n as [| n IH]; intros lo; [exact I |].
  rewrite day_range_S. destruct n as [| n]; [exact I |].
  specialize (IH (lo + 1)). rewrite day_range_S in IH |- *.
  split; [reflexivity | exact IH].
Qed.

Lemma day_range_bounds lo n d :
  In d (day_range lo n) -> lo <= d < lo + Z.of_nat n.
Proof.
  unfold day_range. rewrite in_map_iff. intros [i [<- Hi]].
  apply in_seq in Hi. lia.
Qed.

Lemma NoDup_day_range n : forall lo, NoDup (day_range lo n).
Proof.
  induction n as [| n IH]; intros lo; [constructor |].
  rewrite day_range_S. constructor; [| apply IH].
  intros Hin. apply day_range_bounds in Hin. lia.
Qed.

Section Upstream.
Variables (env : Env) (self : t).
Hypothesis upstream :
  pages_oldest_first env (base_currency (instrument self))
    (quote_currency (instrument self)).

(** A page of size [n] ending on [to_date]: the [n + 1] days up to
    [to_date], oldest first. *)
Lemma request_days n to_date w :
  0 <= n ->
  exists bars w',
    request_cryptocompare env self n to_date w = Ok bars w' /\
    map bar_day bars = day_range (to_date - n) (S (Z.to_nat n)).
Proof.
  intros Hn. destruct (upstream n (toTs to_date) Hn) as [raw [E Ht]].
  exists (map bar_of_raw raw). eexists. split.
  - apply (PageFacts.request_cryptocompare_Ok _ _ _ _ _ _ E).
  - rewrite map_map.
    rewrite (map_ext _ (fun r => raw_time r / sec_per_day))
      by apply TimeFacts.bar_day_of_raw.
    rewrite <- (map_map raw_time (fun s => s / sec_per_day)), Ht, map_map.
    rewrite TimeFacts.toTs_day.
    rewrite (map_ext _ (fun d => d)) by apply TimeFacts.midnight_day.
    apply map_id.
Qed.

(** The loop invariant: after [k] turns the accumulator holds the
    [2001 * k] days that end on the first [to_date], and [limit] has
    gone down by [2000 * k]. *)
Lemma pages_loop_days fuel : forall limit to_date acc w,
  limit <= 2000 * Z.of_nat fuel + 2000 ->
  exists k bars w',
    pages_loop env self fuel limit to_date acc w =
    Ok (limit - 2000 * Z.of_nat k, to_date - 2001 * Z.of_nat k, bars ++ acc) w' /\
    map bar_day bars =
    day_range (to_date - 2001 * Z.of_nat k + 1) (2001 * k) /\
    limit - 2000 * Z.of_nat k <= 2000 /\
    (k = 0%nat \/ 0 < limit - 2000 * Z.of_nat k).
Proof.
  induction fuel as [| fuel IH]; intros limit to_date acc w Hfuel.
  - exists 0%nat, [], w. cbn [pages_loop].
    replace (limit >? 2000) with false
      by (symmetry; rewrite Z.gtb_ltb; apply Z.ltb_ge; lia).
    cbn [Z.of_nat]. rewrite !Z.mul_0_r, !Z.sub_0_r.
    repeat split; [lia | left; reflexivity].
  - cbn [pages_loop]. destruct (limit >? 2000) eqn:Hgt.
    + rewrite Z.gtb_ltb in Hgt. apply Z.ltb_lt in Hgt.
      destruct (request_days 2000 to_date w ltac:(lia))
        as [data [w1 [Ereq Hdays]]].
      rewrite (bind_Ok _ _ _ _ _ Ereq).
      change (Z.to_nat 2000) with 2000%nat in Hdays.
      rewrite day_range_S in Hdays.
      destruct data as [| d0 data]; [discriminate Hdays |].
      cbn [first_row]. unfold ret at 1. rewrite (bind_Ok _ _ _ _ _ eq_refl).
      assert (Hd0 : datetime_date (bar_0 d0) = to_date - 2000)
        by (now injection Hdays).
      rewrite Hd0.
      destruct (IH (limit - 2000) (to_date - 2000 - 1) ((d0 :: data) ++ acc) w1
                  ltac:(lia)) as [k [bars [w' [Eloop [Hbars [Hle Hk]]]]]].
      exists (S k), (bars ++ d0 :: data), w'.
      rewrite Eloop. split; [| split; [| split]].
      * f_equal. f_equal; [f_equal; lia | now rewrite <- app_assoc].
      * rewrite map_app, Hbars, Hdays, <- day_range_S.
        replace (to_date - 2000 - 1 - 2001 * Z.of_nat k + 1)
          with (to_date - 2001 * Z.of_nat (S k) + 1) by lia.
        replace (to_date - 2000)
          with (to_date - 2001 * Z.of_nat (S k) + 1 + Z.of_nat (2001 * k))
          by lia.
        rewrite day_range_app. f_equal. lia.
      * lia.
      * right. destruct Hk as [-> | Hk]; lia.
    + rewrite Z.gtb_ltb in Hgt. apply Z.ltb_ge in Hgt.
      exists 0%nat, [], w. cbn [Z.of_nat]. rewrite !Z.mul_0_r, !Z.sub_0_r.
      repeat split; [lia | left; reflexivity].
Qed.

End Upstream.

End StitchFacts.

Module WindowFacts.
Import CryptoCompareOHLC.

Section Upstream.
Variables (env : Env) (self : t).
Hypothesis upstream :
  pages_oldest_first env (base_currency (instrument self))
    (quote_currency (instrument self)).

(** The stitched pages of a window of [limit] days: [k] full pages and
    a last one; each full page brings one day more than the 2000 by
    which [limit] is lowered. *)
Lemma fetch_pages_days limit end_date w :
  0 <= limit ->
  exists k bars w',
    fetch_pages env self limit end_date w = Ok bars w' /\
    map bar_day bars =
    day_range (end_date - limit - Z.of_nat k) (S (Z.to_nat limit + k)) /\
    (limit <= 2000 -> k = 0%nat) /\
    (2000 < limit -> 0 < limit - 2000 * Z.of_nat k <= 2000).
Proof.
  intros Hlimit. unfold fetch_pages. destruct (limit >? 2000) eqn:Hgt.
  - rewrite Z.gtb_ltb in Hgt. apply Z.ltb_lt in Hgt.
    destruct (StitchFacts.pages_loop_days env self upstream (Z.to_nat limit)
                limit end_date [] w ltac:(lia))
      as [k [bars1 [w1 [Eloop [Hbars1 [Hle Hk]]]]]].
    assert (Hpos : 0 < limit - 2000 * Z.of_nat k)
      by (destruct Hk as [-> | Hk]; lia).
    rewrite (bind_Ok _ _ _ _ _ Eloop). cbv beta iota.
    replace (limit - 2000 * Z.of_nat k >? 0) with true
      by (symmetry; rewrite Z.gtb_ltb; apply Z.ltb_lt; lia).
    destruct (StitchFacts.request_days env self upstream
                (limit - 2000 * Z.of_nat k) (end_date - 2001 * Z.of_nat k) w1
                ltac:(lia)) as [bars2 [w2 [Ereq Hbars2]]].
    rewrite (bind_Ok _ _ _ _ _ Ereq).
    exists k, (bars2 ++ bars1 ++ []), w2. split; [reflexivity |].
    split; [| split; lia].
    rewrite app_nil_r, map_app, Hbars1, Hbars2.
    replace (end_date - 2001 * Z.of_nat k - (limit - 2000 * Z.of_nat k))
      with (end_date - limit - Z.of_nat k) by lia.
    replace (end_date - 2001 * Z.of_nat k + 1)
      with (end_date - limit - Z.of_nat k
            + Z.of_nat (S (Z.to_nat (limit - 2000 * Z.of_nat k)))) by lia.
    rewrite StitchFacts.day_range_app. f_equal. lia.
  - rewrite Z.gtb_ltb in Hgt. apply Z.ltb_ge in Hgt.
    destruct (StitchFacts.request_days env self upstream limit end_date w
                Hlimit) as [bars [w1 [Ereq Hbars]]].
    exists 0%nat, bars, w1. split; [exact Ereq |]. split; [| split; lia].
    rewrite Hbars. f_equal; lia.
Qed.

(** What an incremental fetch stages: the stitched days without the
    first one. *)
Lemma staged_days end_date start w :
  vehicle (instrument self) = "crypto" ->
  0 <= end_date - start ->
  exists k bars w',
    get_ohlc_data env self end_date (Some start) w = Ok (set_data self bars) w' /\
    map bar_day bars =
    day_range (start + 1 - Z.of_nat k) (Z.to_nat (end_date - start) + k) /\
    (end_date - start <= 2000 -> k = 0%nat) /\
    (2000 < end_date - start ->
     0 < end_date - start - 2000 * Z.of_nat k <= 2000).
Proof.
  intros Hv Hlimit.
  rewrite (LimitFacts.get_ohlc_data_crypto _ _ _ _ _ Hv).
  rewrite (bind_Ok _ _ _ _ _ (LimitFacts.set_api_limit_start _ _ _ _)).
  cbn [read_local]. unfold ret at 1. rewrite (bind_Ok _ _ _ _ _ eq_refl).
  destruct (fetch_pages_days (end_date - start) end_date w Hlimit)
    as [k [bars [w' [Efetch [Hbars [Hk1 Hk2]]]]]].
  rewrite (bind_Ok _ _ _ _ _ Efetch). cbn [trim truthy negb].
  rewrite StitchFacts.day_range_S in Hbars.
  destruct bars as [| b bars]; [discriminate Hbars |].
  exists k, bars, w'. split; [reflexivity |]. split; [| split; assumption].
  injection Hbars as _ ->. f_equal. lia.
Qed.

End Upstream.

Lemma synthetic_oldest_first fsym tsym :
  pages_oldest_first Fixture.env_oldest_first fsym tsym.
Proof.
  intros n ts _. eexists. split; [reflexivity |].
  unfold Fixture.page_oldest_first. rewrite map_map. reflexivity.
Qed.

Lemma synthetic_newest_first fsym tsym :
  pages_newest_first Fixture.env_newest_first fsym tsym.
Proof.
  intros n ts _. eexists. split; [reflexivity |].
  unfold Fixture.page_newest_first, Fixture.page_oldest_first.
  rewrite <- map_rev, <- !map_rev, map_map. reflexivity.
Qed.

(** The day count lost per full page: a window of 5000 days, fetched in
    two full pages and a third of 1000, stages 5002 bars, the first of
    them dated one day before [start_date]. *)
Lemma window_5000_stages_5002 env self end_date w :
  vehicle (instrument self) = "crypto" ->
  pages_oldest_first env (base_currency (instrument self))
    (quote_currency (instrument self)) ->
  exists bars w',
    get_ohlc_data env self end_date (Some (end_date - 5000)) w =
    Ok (set_data self bars) w' /\
    map bar_day bars = day_range (end_date - 5001) (Z.to_nat 5002).
Proof.
  intros Hv Hup.
  destruct (staged_days env self Hup end_date (end_date - 5000) w Hv
              ltac:(lia)) as [k [bars [w' [E [Hbars [_ Hk]]]]]].
  assert (Hk2 : k = 2%nat) by lia. subst k.
  exists bars, w'. split; [exact E |]. rewrite Hbars.
  replace (end_date - (end_date - 5000)) with 5000 by lia.
  f_equal. lia.
Qed.

End WindowFacts.

(** ** The fuel of the pagination loop *)

Module FuelFacts.
Import CryptoCompareOHLC.

Lemma request_cryptocompare_fuel env self limit to_date :
  only_raises (fun e => e <> FuelExhausted)
    (request_cryptocompare env self limit to_date).
Proof.
  unfold request_cryptocompare. apply RaiseFacts.only_raises_bind.
  - apply RaiseFacts.only_raises_http. discriminate.
  - intros raw. apply RaiseFacts.only_raises_ret.
Qed.

Lemma pages_loop_fuel env self fuel : forall limit to_date all_data,
  limit <= 2000 * Z.of_nat fuel + 2000 ->
  only_raises (fun e => e <> FuelExhausted)
    (pages_loop env self fuel limit to_date all_data).
Proof.
  induction fuel as [| fuel IH]; intros limit to_date all_data Hfuel;
    cbn [pages_loop]; destruct (limit >? 2000) eqn:Hgt;
    try apply RaiseFacts.only_raises_ret.
  - rewrite Z.gtb_ltb in Hgt. apply Z.ltb_lt in Hgt. lia.
  - apply RaiseFacts.only_raises_bind; [apply request_cryptocompare_fuel |].
    intros data. apply RaiseFacts.only_raises_bind.
    + destruct data; cbn [first_row];
        [apply RaiseFacts.only_raises_raise; discriminate
        | apply RaiseFacts.only_raises_ret].
    + intros d0. apply IH. lia.
Qed.

(** The loop of [fetch_pages] always has turns enough: the stand-in for
    non-termination is never the outcome of a fetch. *)
Lemma fetch_pages_fuel env self limit end_date :
  only_raises (fun e => e <> FuelExhausted) (fetch_pages env self limit end_date).
Proof.
  unfold fetch_pages. destruct (limit >? 2000) eqn:Hgt.
  - rewrite Z.gtb_ltb in Hgt. apply Z.ltb_lt in Hgt.
    apply RaiseFacts.only_raises_bind; [apply pages_loop_fuel; lia |].
    intros [[limit' to_date] all_data]. destruct (limit' >? 0).
    + apply RaiseFacts.only_raises_bind; [apply request_cryptocompare_fuel |].
      intros data. apply RaiseFacts.only_raises_ret.
    + apply RaiseFacts.only_raises_ret.
  - apply request_cryptocompare_fuel.
Qed.

End FuelFacts.

(** ** The window of 5000 days *)

(** What a run that meets [stitched_5000] has staged. *)
Lemma stitched_5000_staged o :
  stitched_5000 o -> Z.of_nat (List.length (staged o)) = 5000.
Proof.
  intros [self [w [bars [E [D [L _]]]]]]. unfold staged. now rewrite E, D.
Qed.

(** C1: the pagination property of the specification fails on both readings of
    the upstream. When the points of a page come newest first,
    [request_cryptocompare] hands them back newest first (it reverses
    twice), [data[0]] is the newest point, and the stitched result is
    neither ascending nor 5000 bars long. When they come oldest first the
    result is ascending, but 5002 bars long. *)
Lemma window_of_5000_is_not_5000_bars :
  (pages_newest_first Fixture.env_newest_first "BTC" "USD" /\
   Z.of_nat (List.length (staged Fixture.run_newest_first)) = 5002 /\
   ascendingb (map bar_day (staged Fixture.run_newest_first)) = false /\
   ~ stitched_5000 Fixture.run_newest_first) /\
  (pages_oldest_first Fixture.env_oldest_first "BTC" "USD" /\
   Z.of_nat (List.length (staged Fixture.run_oldest_first)) = 5002 /\
   ~ stitched_5000 Fixture.run_oldest_first).
Proof.
  assert (Hnf : Z.of_nat (List.length (staged Fixture.run_newest_first)) = 5002)
    by (vm_compute; reflexivity).
  assert (Hof : Z.of_nat (List.length (staged Fixture.run_oldest_first)) = 5002)
    by (vm_compute; reflexivity).
  split; [split; [| split; [| split]] | split; [| split]].
  - apply WindowFacts.synthetic_newest_first.
  - exact Hnf.
  - vm_compute. reflexivity.
  - intros H. apply stitched_5000_staged in H. rewrite Hnf in H. discriminate H.
  - apply WindowFacts.synthetic_oldest_first.
  - exact Hof.
  - intros H. apply stitched_5000_staged in H. rewrite Hof in H. discriminate H.
Qed.

(** C1 (amended): for a window of 5000 days ([start_date] supplied) on an
    upstream whose page of size [n] is the [n + 1] daily points that end on
    the day asked for, oldest first, the pagination loop of [get_ohlc_data]
    returns, and the bars it stages are in strictly ascending order of
    day, one day apart, without a repeated day; they end on [end_date] and
    hold every day of the window. *)
Theorem pagination_stitches_consecutive_days env self end_date w :
  vehicle (CryptoCompareOHLC.instrument self) = "crypto" ->
  pages_oldest_first env (base_currency (CryptoCompareOHLC.instrument self))
    (quote_currency (CryptoCompareOHLC.instrument self)) ->
  exists bars w',
    CryptoCompareOHLC.get_ohlc_data env self end_date (Some (end_date - 5000)) w =
    Ok (CryptoCompareOHLC.set_data self bars) w' /\
    ascending (map bar_day bars) /\
    gap_free (map bar_day bars) /\
    NoDup (map bar_day bars) /\
    (exists earlier, map bar_day bars = earlier ++ [end_date]) /\
    (forall d, end_date - 5000 < d <= end_date -> In d (map bar_day bars)).
Proof.
  intros Hv Hup.
  destruct (WindowFacts.window_5000_stages_5002 env self end_date w Hv Hup)
    as [bars [w' [E Hdays]]].
  exists bars, w'. split; [exact E |]. rewrite Hdays.
  split; [apply StitchFacts.ascending_day_range |].
  split; [apply StitchFacts.gap_free_day_range |].
  split; [apply StitchFacts.NoDup_day_range |]. split.
  - exists (day_range (end_date - 5001) (Z.to_nat 5001)).
    replace [end_date]
      with (day_range (end_date - 5001 + Z.of_nat (Z.to_nat 5001)) 1)
      by (unfold day_range; cbn [seq map]; f_equal; lia).
    rewrite StitchFacts.day_range_app. f_equal; lia.
  - intros d Hd. unfold day_range. apply in_map_iff.
    exists (Z.to_nat (d - (end_date - 5001))). split; [lia |].
    apply in_seq. lia.
Qed.

Lemma pagination_stitches_consecutive_days_witness :
  exists bars w',
    CryptoCompareOHLC.get_ohlc_data Fixture.env_oldest_first Fixture.cc_btcusd
      Fixture.today0 (Some (Fixture.today0 - 5000)) Fixture.w_empty =
    Ok (CryptoCompareOHLC.set_data Fixture.cc_btcusd bars) w' /\
    ascending (map bar_day bars) /\
    gap_free (map bar_day bars) /\
    NoDup (map bar_day bars) /\
    (exists earlier, map bar_day bars = earlier ++ [Fixture.today0]) /\
    (forall d, Fixture.today0 - 5000 < d <= Fixture.today0 ->
               In d (map bar_day bars)).
Proof.
  exact (pagination_stitches_consecutive_days Fixture.env_oldest_first
           Fixture.cc_btcusd Fixture.today0 Fixture.w_empty eq_refl
           (WindowFacts.synthetic_oldest_first _ _)).
Defined.

(** * Further properties *)

(** ** What a run does to the world *)

Module EffectFacts.

Lemma fetches_at_most_ret {A} n (a : A) : fetches_at_most n (ret a).
Proof.
  intros w. split; [reflexivity |]. exists []. cbn. rewrite app_nil_r.
  split; [reflexivity | lia].
Qed.

Lemma fetches_at_most_raise {A} n e : fetches_at_most n (@raise A e).
Proof.
  intros w. split; [reflexivity |]. exists []. cbn. rewrite app_nil_r.
  split; [reflexivity | lia].
Qed.

Lemma fetches_at_most_weaken {A} n p (m : M A) :
  (n <= p)%nat -> fetches_at_most n m -> fetches_at_most p m.
Proof.
  intros Hnp Hm w. destruct (Hm w) as [Hs [rs [Ht Hl]]].
  split; [exact Hs |]. exists rs. split; [exact Ht | lia].
Qed.

Lemma fetches_at_most_bind {A B} n p (m : M A) (k : A -> M B) :
  fetches_at_most n m -> (forall a, fetches_at_most p (k a)) ->
  fetches_at_most (n + p) (bind m k).
Proof.
  intros Hm Hk w. destruct (Hm w) as [Hs [rs [Ht Hl]]]. unfold bind.
  destruct (m w) as [a w1 | e w1]; cbn [final_world] in *.
  - destruct (Hk a w1) as [Hs2 [rs2 [Ht2 Hl2]]]. split; [congruence |].
    exists (rs ++ rs2). rewrite Ht2, Ht, map_app, app_assoc, length_app.
    split; [reflexivity | lia].
  - split; [exact Hs |]. exists rs. split; [exact Ht | lia].
Qed.

Lemma fetches_at_most_http {A} r (answer : option A) :
  fetches_at_most 1 (http r answer).
Proof.
  intros w. destruct answer; (split; [reflexivity |]); exists [r];
    (split; [reflexivity | apply le_n]).
Qed.

Lemma fetch_only_of {A} n (m : M A) : fetches_at_most n m -> fetch_only m.
Proof.
  intros Hm w. destruct (Hm w) as [Hs [rs [Ht _]]].
  split; [exact Hs |]. exists rs. exact Ht.
Qed.

Lemma fetch_only_bind {A B} (m : M A) (k : A -> M B) :
  fetch_only m -> (forall a, fetch_only (k a)) -> fetch_only (bind m k).
Proof.
  intros Hm Hk w. destruct (Hm w) as [Hs [rs Ht]]. unfold bind.
  destruct (m w) as [a w1 | e w1]; cbn [final_world] in *.
  - destruct (Hk a w1) as [Hs2 [rs2 Ht2]]. split; [congruence |].
    exists (rs ++ rs2). now rewrite Ht2, Ht, map_app, app_assoc.
  - split; [exact Hs |]. exists rs. exact Ht.
Qed.

Lemma fetch_only_ret {A} (a : A) : fetch_only (ret a).
Proof. exact (fetch_only_of 0 _ (fetches_at_most_ret 0 a)). Qed.

Lemma fetch_only_raise {A} e : fetch_only (@raise A e).
Proof. exact (fetch_only_of 0 _ (fetches_at_most_raise 0 e)). Qed.

End EffectFacts.

Module CryptoEffects.
Import CryptoCompareOHLC.

Lemma request_cryptocompare_fetches env self limit to_date :
  fetches_at_most 1 (request_cryptocompare env self limit to_date).
Proof.
  unfold request_cryptocompare.
  apply (EffectFacts.fetches_at_most_bind 1 0).
  - apply EffectFacts.fetches_at_most_http.
  - intros raw. apply EffectFacts.fetches_at_most_ret.
Qed.

Lemma full_pages_step limit :
  2000 < limit ->
  Z.to_nat ((limit - 1) / 2000) = S (Z.to_nat ((limit - 2000 - 1) / 2000)).
Proof.
  intros H. replace (limit - 1) with (limit - 2000 - 1 + 1 * 2000) by lia.
  rewrite Z.div_add by discriminate.
  assert (0 <= (limit - 2000 - 1) / 2000) by (apply Z.div_pos; lia). lia.
Qed.

Lemma pages_loop_fetches env self fuel : forall limit to_date all_data,
  fetches_at_most (Z.to_nat ((limit - 1) / 2000))
    (pages_loop env self fuel limit to_date all_data).
Proof.
  induction fuel as [| fuel IH]; intros limit to_date all_data;
    cbn [pages_loop]; destruct (limit >? 2000) eqn:Hgt;
    try apply EffectFacts.fetches_at_most_ret;
    try apply EffectFacts.fetches_at_most_raise.
  rewrite Z.gtb_ltb in Hgt. apply Z.ltb_lt in Hgt.
  rewrite (full_pages_step limit Hgt).
  apply (EffectFacts.fetches_at_most_bind 1);
    [apply request_cryptocompare_fetches |].
  intros data. apply (EffectFacts.fetches_at_most_bind 0).
  - destruct data; cbn [first_row];
      [apply EffectFacts.fetches_at_most_raise
      | apply EffectFacts.fetches_at_most_ret].
  - intros d0. apply IH.
Qed.

Lemma fetch_pages_fetches env self limit end_date :
  fetches_at_most (Z.to_nat ((limit - 1) / 2000) + 1)
    (fetch_pages env self limit end_date).
Proof.
  unfold fetch_pages. destruct (limit >? 2000).
  - apply EffectFacts.fetches_at_most_bind; [apply pages_loop_fetches |].
    intros [[limit' to_date] all_data]. destruct (limit' >? 0).
    + apply (EffectFacts.fetches_at_most_bind 1 0);
        [apply request_cryptocompare_fetches |].
      intros data. apply EffectFacts.fetches_at_most_ret.
    + apply EffectFacts.fetches_at_most_ret.
  - apply (EffectFacts.fetches_at_most_weaken 1);
      [lia | apply request_cryptocompare_fetches].
Qed.

Lemma set_api_limit_fetch_only env end_date start_date :
  fetch_only (set_api_limit env end_date start_date).
Proof.
  destruct start_date as [d |]; unfold set_api_limit; cbn [truthy is_None].
  - apply EffectFacts.fetch_only_bind.
    + apply EffectFacts.fetch_only_bind; [apply EffectFacts.fetch_only_ret |].
      intros a. apply EffectFacts.fetch_only_ret.
    + intros a. apply EffectFacts.fetch_only_ret.
  - apply EffectFacts.fetch_only_bind; [apply EffectFacts.fetch_only_ret |].
    intros a. apply EffectFacts.fetch_only_bind.
    + exact (EffectFacts.fetch_only_of 1 _ (EffectFacts.fetches_at_most_http _ _)).
    + intros ts. apply EffectFacts.fetch_only_ret.
Qed.

Lemma trim_fetch_only start_date all_data : fetch_only (trim start_date all_data).
Proof.
  unfold trim. destruct (negb (truthy start_date));
    [| apply EffectFacts.fetch_only_ret].
  unfold strip_leading_zeros. apply EffectFacts.fetch_only_bind.
  - destruct (enumerate_loop all_data 0 None); cbn [read_local];
      [apply EffectFacts.fetch_only_ret | apply EffectFacts.fetch_only_raise].
  - intros i. apply EffectFacts.fetch_only_ret.
Qed.

Lemma get_ohlc_data_fetch_only env self end_date start_date :
  fetch_only (get_ohlc_data env self end_date start_date).
Proof.
  unfold get_ohlc_data.
  destruct (negb (String.eqb (vehicle (instrument self)) "crypto"));
    [apply EffectFacts.fetch_only_ret |].
  apply EffectFacts.fetch_only_bind; [apply set_api_limit_fetch_only |].
  intros slot. apply EffectFacts.fetch_only_bind.
  - destruct slot; cbn [read_local];
      [apply EffectFacts.fetch_only_ret | apply EffectFacts.fetch_only_raise].
  - intros limit. apply EffectFacts.fetch_only_bind.
    + exact (EffectFacts.fetch_only_of _ _ (fetch_pages_fetches _ _ _ _)).
    + intros all_data. apply EffectFacts.fetch_only_bind;
        [apply trim_fetch_only |].
      intros all_data'. apply EffectFacts.fetch_only_ret.
Qed.

End CryptoEffects.

(** ** One request, and the shape of a window *)

(** X1: [request_cryptocompare] records exactly one request and, when it is
    answered, returns one tuple per point of the answer, in the order of the
    answer: walking the points in reverse and flipping the arrays cancel out.
    When the request fails, its exception is the outcome. *)
Theorem request_cryptocompare_keeps_answer_order env self limit to_date w :
  CryptoCompareOHLC.request_cryptocompare env self limit to_date w =
  let r := GetHistoday (base_currency (CryptoCompareOHLC.instrument self))
             (quote_currency (CryptoCompareOHLC.instrument self)) limit
             (CryptoCompareOHLC.toTs to_date) in
  match histoday env (base_currency (CryptoCompareOHLC.instrument self))
          (quote_currency (CryptoCompareOHLC.instrument self)) limit
          (CryptoCompareOHLC.toTs to_date) with
  | Some raw => Ok (map bar_of_raw raw) (fetched r w)
  | None => Raise (RequestError r) (fetched r w)
  end.
Proof.
  cbv zeta.
  destruct (histoday env _ _ limit (CryptoCompareOHLC.toTs to_date))
    as [raw |] eqn:E.
  - apply (PageFacts.request_cryptocompare_Ok _ _ _ _ _ _ E).
  - unfold CryptoCompareOHLC.request_cryptocompare. rewrite E. reflexivity.
Qed.

Module ShapeFacts.
Import CryptoCompareOHLC.

Lemma days_of_answer raw days :
  map raw_time raw = map midnight days ->
  map bar_day (map bar_of_raw raw) = days.
Proof.
  intros Ht. rewrite map_map.
  rewrite (map_ext _ (fun r => raw_time r / sec_per_day))
    by apply TimeFacts.bar_day_of_raw.
  rewrite <- (map_map raw_time (fun s => s / sec_per_day)), Ht, map_map.
  rewrite (map_ext _ (fun d => d)) by apply TimeFacts.midnight_day.
  apply map_id.
Qed.

Lemma full_pages_of limit k :
  0 < limit - 2000 * Z.of_nat k <= 2000 -> (limit - 1) / 2000 = Z.of_nat k.
Proof.
  intros H. symmetry.
  apply (Z.div_unique _ _ _ (limit - 1 - 2000 * Z.of_nat k)); lia.
Qed.

End ShapeFacts.

(** X2: a window of at most 2000 days ([start_date] supplied) costs one
    request, of size [end_date - start_date], and on an upstream of daily
    points it stages exactly the days after [start_date] up to [end_date]:
    [start_date] itself, the extra point of the answer, is trimmed. *)
Theorem single_page_window_is_exact env self end_date start w :
  vehicle (CryptoCompareOHLC.instrument self) = "crypto" ->
  pages_oldest_first env (base_currency (CryptoCompareOHLC.instrument self))
    (quote_currency (CryptoCompareOHLC.instrument self)) ->
  0 <= end_date - start <= 2000 ->
  exists bars,
    CryptoCompareOHLC.get_ohlc_data env self end_date (Some start) w =
    Ok (CryptoCompareOHLC.set_data self bars)
       (fetched (GetHistoday (base_currency (CryptoCompareOHLC.instrument self))
                   (quote_currency (CryptoCompareOHLC.instrument self))
                   (end_date - start) (CryptoCompareOHLC.toTs end_date)) w) /\
    map bar_day bars = day_range (start + 1) (Z.to_nat (end_date - start)).
Proof.
  intros Hv Hup Hlimit.
  destruct (Hup (end_date - start) (CryptoCompareOHLC.toTs end_date)
              ltac:(lia)) as [raw [E Ht]].
  exists (skipn 1 (map bar_of_raw raw)). split.
  - rewrite (LimitFacts.get_ohlc_data_crypto _ _ _ _ _ Hv).
    rewrite (bind_Ok _ _ _ _ _ (LimitFacts.set_api_limit_start _ _ _ _)).
    cbn [read_local]. unfold ret at 1. rewrite (bind_Ok _ _ _ _ _ eq_refl).
    rewrite PageFacts.fetch_pages_single by lia.
    rewrite (bind_Ok _ _ _ _ _ (PageFacts.request_cryptocompare_Ok _ _ _ _ _ _ E)).
    reflexivity.
  - rewrite TimeFacts.toTs_day in Ht.
    rewrite <- skipn_map, (ShapeFacts.days_of_answer _ _ Ht).
    rewrite StitchFacts.day_range_S. cbn [skipn]. f_equal. lia.
Qed.

Lemma single_page_window_is_exact_witness :
  exists bars,
    staged (CryptoCompareOHLC.get_ohlc_data Fixture.env_oldest_first
              Fixture.cc_btcusd Fixture.today0 (Some 19990) Fixture.w_empty) = bars /\
    map bar_day bars = day_range 19991 10.
Proof.
  destruct (single_page_window_is_exact Fixture.env_oldest_first
              Fixture.cc_btcusd Fixture.today0 19990 Fixture.w_empty eq_refl
              (WindowFacts.synthetic_oldest_first _ _)
              ltac:(vm_compute; split; discriminate)) as [bars [E Hdays]].
  exists bars. split; [| exact Hdays]. rewrite E. reflexivity.
Defined.

(** X3: a window of more than 2000 days is fetched in
    [k = (limit - 1) / 2000] full pages and a last one, and on an upstream of
    daily points every full page adds one day to the result: the staged bars
    are [limit + k] consecutive days that end on [end_date], the first of
    them [k - 1] days before [start_date]. *)
Theorem paged_window_starts_early env self end_date start w :
  vehicle (CryptoCompareOHLC.instrument self) = "crypto" ->
  pages_oldest_first env (base_currency (CryptoCompareOHLC.instrument self))
    (quote_currency (CryptoCompareOHLC.instrument self)) ->
  2000 < end_date - start ->
  exists bars w',
    CryptoCompareOHLC.get_ohlc_data env self end_date (Some start) w =
    Ok (CryptoCompareOHLC.set_data self bars) w' /\
    map bar_day bars =
    day_range (start + 1 - (end_date - start - 1) / 2000)
              (Z.to_nat (end_date - start + (end_date - start - 1) / 2000)) /\
    1 <= (end_date - start - 1) / 2000.
Proof.
  intros Hv Hup Hlimit.
  destruct (WindowFacts.staged_days env self Hup end_date start w Hv
              ltac:(lia)) as [k [bars [w' [E [Hdays [_ Hk]]]]]].
  specialize (Hk Hlimit).
  rewrite (ShapeFacts.full_pages_of _ _ Hk).
  exists bars, w'. split; [exact E |]. split; [| lia].
  rewrite Hdays. f_equal. lia.
Qed.

Lemma paged_window_starts_early_witness :
  exists bars w',
    CryptoCompareOHLC.get_ohlc_data Fixture.env_oldest_first Fixture.cc_btcusd
      Fixture.today0 (Some 17000) Fixture.w_empty =
    Ok (CryptoCompareOHLC.set_data Fixture.cc_btcusd bars) w' /\
    map bar_day bars = day_range 17000 (Z.to_nat 3001).
Proof.
  destruct (paged_window_starts_early Fixture.env_oldest_first
              Fixture.cc_btcusd Fixture.today0 17000 Fixture.w_empty eq_refl
              (WindowFacts.synthetic_oldest_first _ _) eq_refl)
    as [bars [w' [E [Hdays _]]]].
  exists bars, w'. split; [exact E | exact Hdays].
Defined.

(** X4: the page loop ends on every day count and every upstream: a fetch
    of [limit] days makes at most [(limit - 1) / 2000 + 1] requests (one when
    [limit] is at most 2000), writes nothing to the store, and never runs
    out of turns. *)
Theorem fetch_pages_ends_within_bound env self limit end_date :
  fetches_at_most (Z.to_nat ((limit - 1) / 2000) + 1)
    (CryptoCompareOHLC.fetch_pages env self limit end_date) /\
  only_raises (fun e => e <> FuelExhausted)
    (CryptoCompareOHLC.fetch_pages env self limit end_date).
Proof.
  split; [apply CryptoEffects.fetch_pages_fetches | apply FuelFacts.fetch_pages_fuel].
Qed.

(** X5: when a full page of the loop comes back empty, [data[0]] raises:
    a window of more than 2000 days whose first page holds no point ends in
    an index error after that one request, and nothing is staged. *)
Theorem empty_full_page_raises env self end_date start w :
  vehicle (CryptoCompareOHLC.instrument self) = "crypto" ->
  2000 < end_date - start ->
  histoday env (base_currency (CryptoCompareOHLC.instrument self))
    (quote_currency (CryptoCompareOHLC.instrument self)) 2000
    (CryptoCompareOHLC.toTs end_date) = Some [] ->
  CryptoCompareOHLC.get_ohlc_data env self end_date (Some start) w =
  Raise IndexError
    (fetched (GetHistoday (base_currency (CryptoCompareOHLC.instrument self))
                (quote_currency (CryptoCompareOHLC.instrument self)) 2000
                (CryptoCompareOHLC.toTs end_date)) w).
Proof.
  intros Hv Hlimit Hpage.
  rewrite (LimitFacts.get_ohlc_data_crypto _ _ _ _ _ Hv).
  rewrite (bind_Ok _ _ _ _ _ (LimitFacts.set_api_limit_start _ _ _ _)).
  cbn [read_local]. unfold ret at 1. rewrite (bind_Ok _ _ _ _ _ eq_refl).
  apply bind_Raise. unfold CryptoCompareOHLC.fetch_pages.
  assert (Hgt : (end_date - start >? 2000) = true)
    by (rewrite Z.gtb_ltb; apply Z.ltb_lt; exact Hlimit).
  rewrite Hgt. apply bind_Raise.
  destruct (Z.to_nat (end_date - start)) as [| fuel] eqn:Hfuel; [lia |].
  cbn [CryptoCompareOHLC.pages_loop]. rewrite Hgt.
  rewrite (bind_Ok _ _ _ _ _ (PageFacts.request_cryptocompare_Ok _ _ _ _ _ _ Hpage)).
  reflexivity.
Qed.

Lemma empty_full_page_raises_witness :
  exists w',
    CryptoCompareOHLC.get_ohlc_data Scenario.env_no_points Fixture.cc_btcusd
      Fixture.today0 (Some 15000) Fixture.w_empty = Raise IndexError w'.
Proof.
  eexists.
  apply (empty_full_page_raises Scenario.env_no_points Fixture.cc_btcusd
           Fixture.today0 15000 Fixture.w_empty eq_refl eq_refl eq_refl).
Defined.

(** ** What the trimming keeps *)

Module TrimShape.
Import CryptoCompareOHLC.

(** Where the scan of a non-empty list stops: at the first bar whose prices
    do not sum to zero, or else at the last bar. *)
Lemma enumerate_loop_shape l : forall idx i0,
  l <> [] ->
  exists pre x post,
    l = pre ++ x :: post /\
    enumerate_loop l idx i0 = Some (idx + List.length pre)%nat /\
    Forall (fun z => sum_nonzero z = false) pre /\
    (sum_nonzero x = true \/ (sum_nonzero x = false /\ post = [])).
Proof.
  induction l as [| b l IH]; intros idx i0 Hne; [contradiction |].
  cbn [enumerate_loop]. destruct (sum_nonzero b) eqn:Hb.
  - exists [], b, l. cbn. rewrite Nat.add_0_r. repeat split; auto.
  - destruct l as [| c l].
    + exists [], b, []. cbn. rewrite Nat.add_0_r. repeat split; auto.
    + destruct (IH (S idx) (Some idx) ltac:(discriminate))
        as [pre [x [post [El [Ei [Hpre Hx]]]]]].
      exists (b :: pre), x, post. rewrite El. cbn [app List.length].
      split; [reflexivity |]. split; [| split; [constructor; assumption | exact Hx]].
      rewrite <- El, Ei. f_equal. lia.
Qed.

Lemma strip_leading_zeros_shape l w :
  l <> [] ->
  exists pre x post,
    l = pre ++ x :: post /\
    strip_leading_zeros l w = Ok (x :: post) w /\
    Forall (fun z => sum_nonzero z = false) pre /\
    (sum_nonzero x = true \/ (sum_nonzero x = false /\ post = [])).
Proof.
  intros Hne.
  destruct (enumerate_loop_shape l 0 None Hne)
    as [pre [x [post [El [Ei [Hpre Hx]]]]]].
  exists pre, x, post. split; [exact El |]. split; [| split; assumption].
  unfold strip_leading_zeros. rewrite Ei. cbn [read_local plus].
  unfold bind, ret. rewrite El. now rewrite TrimFacts.skipn_app_length.
Qed.

Lemma strip_leading_zeros_head x post w :
  sum_nonzero x = true \/ (sum_nonzero x = false /\ post = []) ->
  strip_leading_zeros (x :: post) w = Ok (x :: post) w.
Proof.
  unfold strip_leading_zeros. cbn [enumerate_loop].
  intros [-> | [-> ->]]; reflexivity.
Qed.

End TrimShape.

(** X6: the trimming of a first-ever fetch drops only leading bars whose
    prices sum to zero, never returns an empty list, changes nothing in the
    world, and trimming its result again changes nothing. *)
Theorem strip_leading_zeros_is_idempotent all_data kept w w' :
  CryptoCompareOHLC.strip_leading_zeros all_data w = Ok kept w' ->
  w' = w /\ kept <> [] /\
  (exists dropped,
     all_data = dropped ++ kept /\
     Forall (fun z => CryptoCompareOHLC.sum_nonzero z = false) dropped) /\
  CryptoCompareOHLC.strip_leading_zeros kept w = Ok kept w.
Proof.
  intros H. destruct all_data as [| b l]; [discriminate H |].
  destruct (TrimShape.strip_leading_zeros_shape (b :: l) w ltac:(discriminate))
    as [pre [x [post [El [Es [Hpre Hx]]]]]].
  rewrite Es in H. injection H as <- <-.
  split; [reflexivity |]. split; [discriminate |]. split.
  - exists pre. split; assumption.
  - apply TrimShape.strip_leading_zeros_head. exact Hx.
Qed.

Lemma strip_leading_zeros_is_idempotent_witness :
  CryptoCompareOHLC.strip_leading_zeros [Fixture.positive_bar] Fixture.w_empty =
  Ok [Fixture.positive_bar] Fixture.w_empty.
Proof.
  apply (strip_leading_zeros_is_idempotent
           (Fixture.zero_bars ++ [Fixture.positive_bar]) [Fixture.positive_bar]
           Fixture.w_empty Fixture.w_empty eq_refl).
Defined.

(** X7: when the prices of every bar sum to zero the scan reaches the end
    without a break, [i] is the last index, and only the last bar is kept. *)
Theorem all_zero_data_keeps_last_bar earlier last_bar w :
  Forall (fun z => CryptoCompareOHLC.sum_nonzero z = false) (earlier ++ [last_bar]) ->
  CryptoCompareOHLC.strip_leading_zeros (earlier ++ [last_bar]) w =
  Ok [last_bar] w.
Proof.
  intros Hz.
  destruct (TrimShape.strip_leading_zeros_shape (earlier ++ [last_bar]) w)
    as [pre [x [post [El [Es [Hpre Hx]]]]]].
  { destruct earlier; discriminate. }
  rewrite Es. destruct Hx as [Hx | [_ ->]].
  - exfalso. rewrite Forall_forall in Hz.
    rewrite (Hz x) in Hx; [discriminate |].
    rewrite El. apply in_or_app. right. left. reflexivity.
  - apply app_inj_tail in El. destruct El as [_ ->]. reflexivity.
Qed.

Lemma all_zero_data_keeps_last_bar_witness :
  CryptoCompareOHLC.strip_leading_zeros Scenario.all_zero_bars Fixture.w_empty =
  Ok [mkBar (combine 18999 0) 0 0 0 0] Fixture.w_empty.
Proof.
  apply (all_zero_data_keeps_last_bar Fixture.zero_bars
           (mkBar (combine 18999 0) 0 0 0 0) Fixture.w_empty).
  repeat constructor.
Defined.

(** ** The crypto-vendor sync as a whole *)

Module SyncFacts.
Import CryptoCompareOHLC.

(** What [get_ohlc_data] returns is [self], with [data] replaced or not. *)
Lemma get_ohlc_data_result env self end_date start_date w self' w' :
  get_ohlc_data env self end_date start_date w = Ok self' w' ->
  self' = self \/ exists bars, self' = set_data self bars.
Proof.
  unfold get_ohlc_data.
  destruct (negb (String.eqb (vehicle (instrument self)) "crypto")).
  - intros H. injection H as <- _. left. reflexivity.
  - intros H.
    apply bind_inv_Ok in H. destruct H as [slot [w1 [_ H]]].
    apply bind_inv_Ok in H. destruct H as [limit [w2 [_ H]]].
    apply bind_inv_Ok in H. destruct H as [all_data [w3 [_ H]]].
    apply bind_inv_Ok in H. destruct H as [all_data' [w4 [_ H]]].
    injection H as <- _. right. exists all_data'. reflexivity.
Qed.

Lemma get_ohlc_data_symbol env self end_date start_date w self' w' :
  get_ohlc_data env self end_date start_date w = Ok self' w' ->
  symbol self' = symbol self.
Proof.
  intros H. destruct (get_ohlc_data_result _ _ _ _ _ _ _ H) as [-> | [bars ->]];
    reflexivity.
Qed.

Lemma get_ohlc_data_store env self end_date start_date w self' w' :
  get_ohlc_data env self end_date start_date w = Ok self' w' ->
  store w' = store w.
Proof.
  intros H.
  destruct (CryptoEffects.get_ohlc_data_fetch_only env self end_date start_date w)
    as [Hs _].
  rewrite H in Hs. exact Hs.
Qed.

(** The rows written for the staged bars. *)
Lemma insert_staged self bars w :
  data self = Some bars ->
  insert_ohlc_data self w =
  Ok tt (mkWorld (store w ++ map (record_of self) bars)
                 (trace w ++ [Write (map (record_of self) bars)])).
Proof. intros E. unfold insert_ohlc_data. rewrite E. reflexivity. Qed.

(** One fetch followed by the insertion, as the three branches of
    [update_ohlc_data] run it. *)
Lemma fetch_then_insert_run env self end_date start_date w :
  (self' <- get_ohlc_data env self end_date start_date ;;
   insert_ohlc_data self' ;;; ret self') w =
  match get_ohlc_data env self end_date start_date w with
  | Ok self1 w1 =>
      match data self1 with
      | Some bars =>
          Ok self1 (mkWorld (store w1 ++ map (record_of self1) bars)
                            (trace w1 ++ [Write (map (record_of self1) bars)]))
      | None => Raise (AttributeError "data") w1
      end
  | Raise e w1 => Raise e w1
  end.
Proof.
  unfold bind at 1.
  destruct (get_ohlc_data env self end_date start_date w) as [self1 w1 | e1 w1];
    [| reflexivity].
  unfold bind, insert_ohlc_data, bind. destruct (data self1); reflexivity.
Qed.

Lemma fetch_then_insert env self end_date start_date w :
  (exists rows,
     store (final_world
              ((self' <- get_ohlc_data env self end_date start_date ;;
                insert_ohlc_data self' ;;; ret self') w)) = store w ++ rows /\
     Forall (fun r => ohlc_symbol r = symbol self) rows) /\
  (forall e w',
     (self' <- get_ohlc_data env self end_date start_date ;;
      insert_ohlc_data self' ;;; ret self') w = Raise e w' ->
     store w' = store w).
Proof.
  rewrite fetch_then_insert_run.
  destruct (get_ohlc_data env self end_date start_date w)
    as [self1 w1 | e1 w1] eqn:G.
  - pose proof (get_ohlc_data_symbol _ _ _ _ _ _ _ G) as Hsym.
    pose proof (get_ohlc_data_store _ _ _ _ _ _ _ G) as Hs.
    destruct (data self1) as [bars |]; cbn [final_world store].
    + split; [| intros e w' H; discriminate H].
      exists (map (record_of self1) bars). rewrite Hs. split; [reflexivity |].
      apply Forall_forall. intros r Hr. apply in_map_iff in Hr.
      destruct Hr as [b [<- _]]. exact Hsym.
    + split.
      * exists []. rewrite app_nil_r. split; [exact Hs | constructor].
      * intros e w' H. injection H as _ <-. exact Hs.
  - destruct (CryptoEffects.get_ohlc_data_fetch_only env self end_date
                start_date w) as [Hs _].
    rewrite G in Hs. cbn [final_world] in *. split.
    + exists []. rewrite app_nil_r. split; [exact Hs | constructor].
    + intros e w' H. injection H as _ <-. exact Hs.
Qed.

(** [update_ohlc_data], by the latest stored bar. *)
Lemma update_ohlc_data_run env self w :
  update_ohlc_data env self w =
  let sync := fun start_date =>
    (self' <- get_ohlc_data env self (today env) start_date ;;
     insert_ohlc_data self' ;;; ret self') w in
  match fold_left (later_of (symbol self)) (store w) None with
  | None => sync None
  | Some latest =>
      if datetime_date (ohlc_date latest) =? today env - 1
      then sync (Some (datetime_date (ohlc_date latest)))
      else if negb (datetime_date (ohlc_date latest) =? today env)
           then sync (Some (datetime_date (ohlc_date latest) + 1))
           else Ok self w
  end.
Proof.
  unfold update_ohlc_data, bind at 1, get_latest_record. cbv zeta.
  destruct (fold_left _ _ _) as [latest |]; [| reflexivity].
  destruct (_ =? _ - 1); [reflexivity |].
  destruct (negb _); reflexivity.
Qed.

End SyncFacts.

(** X8: a run of the crypto-vendor [update_ohlc_data] only ever appends:
    whatever the store, the clock and the upstream, the store afterwards is
    the store before followed by rows that all carry the updater's symbol;
    and a run that ends in an exception has written nothing. *)
Theorem crypto_sync_only_appends env self w :
  (exists rows,
     store (final_world (CryptoCompareOHLC.update_ohlc_data env self w)) =
     store w ++ rows /\
     Forall (fun r => ohlc_symbol r = CryptoCompareOHLC.symbol self) rows) /\
  (forall e w',
     CryptoCompareOHLC.update_ohlc_data env self w = Raise e w' ->
     store w' = store w).
Proof.
  rewrite SyncFacts.update_ohlc_data_run. cbv zeta.
  destruct (fold_left (later_of (CryptoCompareOHLC.symbol self)) (store w) None)
    as [latest |]; [| apply SyncFacts.fetch_then_insert].
  destruct (datetime_date (ohlc_date latest) =? today env - 1);
    [apply SyncFacts.fetch_then_insert |].
  destruct (negb (datetime_date (ohlc_date latest) =? today env));
    [apply SyncFacts.fetch_then_insert |].
  cbn [final_world]. split.
  - exists []. rewrite app_nil_r. split; [reflexivity | constructor].
  - intros e w' H. discriminate H.
Qed.

(** X9: on an instrument that is not crypto and is not up to date, the
    crypto-vendor [update_ohlc_data] fails: [get_ohlc_data] returns without
    setting [self.data], and [insert_ohlc_data] reads the missing attribute.
    No request is made and nothing is written. *)
Theorem non_crypto_sync_raises env self latest w :
  vehicle (CryptoCompareOHLC.instrument self) <> "crypto" ->
  CryptoCompareOHLC.data self = None ->
  get_latest_record (CryptoCompareOHLC.symbol self) w = Ok latest w ->
  (forall l, latest = Some l -> datetime_date (ohlc_date l) <> today env) ->
  CryptoCompareOHLC.update_ohlc_data env self w = Raise (AttributeError "data") w.
Proof.
  intros Hv Hdata Hlatest Hstale.
  assert (Hstep : forall end_date start_date,
    (self' <- CryptoCompareOHLC.get_ohlc_data env self end_date start_date ;;
     CryptoCompareOHLC.insert_ohlc_data self' ;;; ret self') w =
    Raise (AttributeError "data") w).
  { intros end_date start_date.
    assert (G : CryptoCompareOHLC.get_ohlc_data env self end_date start_date w =
                Ok self w).
    { unfold CryptoCompareOHLC.get_ohlc_data.
      destruct (String.eqb_spec (vehicle (CryptoCompareOHLC.instrument self)) "crypto");
        [contradiction | reflexivity]. }
    rewrite (bind_Ok _ _ _ _ _ G).
    unfold CryptoCompareOHLC.insert_ohlc_data, bind. rewrite Hdata. reflexivity. }
  unfold CryptoCompareOHLC.update_ohlc_data.
  rewrite (bind_Ok _ _ _ _ _ Hlatest).
  destruct latest as [l |]; [| apply Hstep].
  destruct (datetime_date (ohlc_date l) =? today env - 1); [apply Hstep |].
  destruct (Z.eqb_spec (datetime_date (ohlc_date l)) (today env)) as [E | _];
    [exfalso; exact (Hstale l eq_refl E) | apply Hstep].
Qed.

Lemma non_crypto_sync_raises_witness :
  CryptoCompareOHLC.update_ohlc_data Fixture.env_oldest_first Fixture.cc_nvda
    (Fixture.w_latest 19990) =
  Raise (AttributeError "data") (Fixture.w_latest 19990).
Proof.
  apply (non_crypto_sync_raises Fixture.env_oldest_first Fixture.cc_nvda
           (Some (Fixture.row_on "NVDA" 19990)) (Fixture.w_latest 19990)).
  - vm_compute. discriminate.
  - reflexivity.
  - reflexivity.
  - intros l E. injection E as <-. vm_compute. discriminate.
Defined.

(** X10: when the latest stored bar of a crypto instrument is between 2 and
    2001 days old, [update_ohlc_data] asks for the window that starts the day
    after it, and the trimming then drops that day: on an upstream of daily
    points the rows appended are those of the days from two days after the
    latest stored bar up to today, [today - latest - 1] of them. *)
Theorem stale_sync_appends_from_second_day env self latest w :
  vehicle (CryptoCompareOHLC.instrument self) = "crypto" ->
  pages_oldest_first env (base_currency (CryptoCompareOHLC.instrument self))
    (quote_currency (CryptoCompareOHLC.instrument self)) ->
  get_latest_record (CryptoCompareOHLC.symbol self) w = Ok (Some latest) w ->
  2 <= today env - ohlc_day latest <= 2001 ->
  exists self' w' rows,
    CryptoCompareOHLC.update_ohlc_data env self w = Ok self' w' /\
    store w' = store w ++ rows /\
    map ohlc_day rows =
    day_range (ohlc_day latest + 2) (Z.to_nat (today env - ohlc_day latest - 1)).
Proof.
  intros Hv Hup Hlatest Hage. unfold ohlc_day in *.
  destruct (WindowFacts.staged_days env self Hup (today env)
              (datetime_date (ohlc_date latest) + 1) w Hv ltac:(lia))
    as [k [bars [w1 [G [Hdays [Hk _]]]]]].
  rewrite (Hk ltac:(lia)) in Hdays. clear Hk.
  unfold CryptoCompareOHLC.update_ohlc_data.
  rewrite (bind_Ok _ _ _ _ _ Hlatest).
  replace (datetime_date (ohlc_date latest) =? today env - 1) with false
    by (symmetry; apply Z.eqb_neq; lia).
  replace (datetime_date (ohlc_date latest) =? today env) with false
    by (symmetry; apply Z.eqb_neq; lia).
  cbn [negb]. rewrite (bind_Ok _ _ _ _ _ G).
  rewrite (bind_Ok _ _ _ _ _
             (SyncFacts.insert_staged (CryptoCompareOHLC.set_data self bars)
                bars w1 eq_refl)).
  eexists. eexists. exists (map (CryptoCompareOHLC.record_of
                                   (CryptoCompareOHLC.set_data self bars)) bars).
  split; [reflexivity |]. cbn [store]. split.
  - now rewrite (SyncFacts.get_ohlc_data_store _ _ _ _ _ _ _ G).
  - rewrite map_map.
    change (map (fun x => datetime_date (ohlc_date (CryptoCompareOHLC.record_of _ x))) bars)
      with (map bar_day bars).
    rewrite Hdays. f_equal; lia.
Qed.

Lemma stale_sync_appends_from_second_day_witness :
  exists self' w' rows,
    CryptoCompareOHLC.update_ohlc_data Fixture.env_oldest_first Fixture.cc_btcusd
      (Fixture.w_latest 19997) = Ok self' w' /\
    store w' = store (Fixture.w_latest 19997) ++ rows /\
    map ohlc_day rows = day_range 19999 2.
Proof.
  exact (stale_sync_appends_from_second_day Fixture.env_oldest_first
           Fixture.cc_btcusd (Fixture.row_on "BTCUSD" 19997)
           (Fixture.w_latest 19997) eq_refl
           (WindowFacts.synthetic_oldest_first _ _) eq_refl
           ltac:(vm_compute; split; discriminate)).
Defined.

(** X11: the first sync of a crypto instrument (no stored bar) asks the
    vendor for its first date, fetches from there to today, and appends in
    one write the stitched bars from the first one whose prices do not sum
    to zero: the zero bars before it are not stored. *)
Theorem first_sync_stores_from_first_nonzero_bar
    env self first_ts zeros b rest w w' :
  vehicle (CryptoCompareOHLC.instrument self) = "crypto" ->
  get_latest_record (CryptoCompareOHLC.symbol self) w = Ok None w ->
  data_available_from env = Some first_ts ->
  CryptoCompareOHLC.fetch_pages env self
    (today env - datetime_date (fromtimestamp first_ts)) (today env)
    (fetched GetBlockchainList w) = Ok (zeros ++ b :: rest) w' ->
  Forall (fun z => CryptoCompareOHLC.sum_nonzero z = false) zeros ->
  CryptoCompareOHLC.sum_nonzero b = true ->
  CryptoCompareOHLC.update_ohlc_data env self w =
  Ok (CryptoCompareOHLC.set_data self (b :: rest))
     (mkWorld
        (store w ++ map (CryptoCompareOHLC.record_of self) (b :: rest))
        (trace w' ++ [Write (map (CryptoCompareOHLC.record_of self) (b :: rest))])).
Proof.
  intros Hv Hlatest Hfirst Hfetch Hz Hb.
  assert (G : CryptoCompareOHLC.get_ohlc_data env self (today env) None w =
              Ok (CryptoCompareOHLC.set_data self (b :: rest)) w').
  { rewrite (LimitFacts.get_ohlc_data_crypto _ _ _ _ _ Hv).
    rewrite (bind_Ok _ _ _ _ _ (LimitFacts.set_api_limit_resolved _ _ _ _ Hfirst)).
    cbn [read_local]. unfold ret at 1. rewrite (bind_Ok _ _ _ _ _ eq_refl).
    rewrite (bind_Ok _ _ _ _ _ Hfetch). cbn [CryptoCompareOHLC.trim truthy negb].
    rewrite (bind_Ok _ _ _ _ _ (TrimFacts.strip_leading_zeros_stops _ _ _ _ Hz Hb)).
    reflexivity. }
  unfold CryptoCompareOHLC.update_ohlc_data.
  rewrite (bind_Ok _ _ _ _ _ Hlatest), (bind_Ok _ _ _ _ _ G).
  rewrite (bind_Ok _ _ _ _ _
             (SyncFacts.insert_staged
                (CryptoCompareOHLC.set_data self (b :: rest)) (b :: rest) w'
                eq_refl)).
  unfold ret. cbn [store trace].
  now rewrite (SyncFacts.get_ohlc_data_store _ _ _ _ _ _ _ G).
Qed.

Lemma first_sync_stores_from_first_nonzero_bar_witness :
  store (final_world
           (CryptoCompareOHLC.update_ohlc_data Fixture.env_genesis
              Fixture.cc_btcusd Fixture.w_empty)) =
  [CryptoCompareOHLC.record_of Fixture.cc_btcusd Fixture.positive_bar].
Proof.
  rewrite (first_sync_stores_from_first_nonzero_bar Fixture.env_genesis
             Fixture.cc_btcusd (midnight 19996) Fixture.zero_bars
             Fixture.positive_bar [] Fixture.w_empty
             (mkWorld [] [Fetch GetBlockchainList;
                          Fetch (GetHistoday "BTC" "USD" 4
                                   (CryptoCompareOHLC.toTs Fixture.today0))])
             eq_refl eq_refl eq_refl eq_refl
             ltac:(repeat constructor) eq_refl).
  reflexivity.
Defined.

(** ** The brokerage sync as a whole *)

Module IBSyncFacts.
Import IBOHLC.

(** The last branch of the window choice is never taken: a date that is
    neither today nor yesterday is not today. *)
Lemma brokerage_update_run env self w :
  update_ohlc_data env self w =
  match fold_left (later_of (symbol self)) (store w) None with
  | None =>
      fetch_and_insert env self datetime_2000_01_01
        (now env - timedelta_minutes 20) w
  | Some latest =>
      if datetime_date (ohlc_date latest) =? today env then Ok self w
      else fetch_and_insert env self (ohlc_date latest + timedelta_days 1)
             (now env - timedelta_minutes 20) w
  end.
Proof.
  unfold update_ohlc_data, bind at 1, get_latest_record.
  destruct (fold_left _ _ _) as [latest |]; [| reflexivity].
  destruct (_ =? today env) eqn:E; [reflexivity |].
  destruct (_ =? today env - 1); reflexivity.
Qed.

Lemma fetch_and_insert_run env self start end_ w :
  fetch_and_insert env self start end_ w =
  match get_ohlc_data env self (Some start) (Some end_) w with
  | Ok self1 w1 =>
      match df self1 with
      | Some rows =>
          Ok self1 (mkWorld (store w1 ++ map ohlc_of_row rows)
                            (trace w1 ++ [Write (map ohlc_of_row rows)]))
      | None => Ok self1 w1
      end
  | Raise e w1 => Raise e w1
  end.
Proof.
  unfold fetch_and_insert, bind at 1.
  destruct (get_ohlc_data env self (Some start) (Some end_) w)
    as [self1 w1 | e w1]; [| reflexivity].
  unfold insert_ohlc_data, bind. destruct (df self1); reflexivity.
Qed.

Lemma gate_closed_run env self start_date end_date w :
  time_checker_on env = true ->
  time_check env (symbol self) "forecast" = false ->
  get_ohlc_data env self start_date end_date w = Ok self w.
Proof. unfold get_ohlc_data. intros -> ->. reflexivity. Qed.

(** A stale store: no bar, or a latest bar that is not of today. *)
Lemma update_stale_run env self latest w :
  get_latest_record (symbol self) w = Ok latest w ->
  (forall l, latest = Some l -> datetime_date (ohlc_date l) <> today env) ->
  update_ohlc_data env self w =
  fetch_and_insert env self
    match latest with
    | Some l => ohlc_date l + timedelta_days 1
    | None => datetime_2000_01_01
    end (now env - timedelta_minutes 20) w.
Proof.
  intros Hlatest Hstale. rewrite brokerage_update_run.
  unfold get_latest_record in Hlatest. injection Hlatest as ->.
  destruct latest as [l |]; [| reflexivity].
  destruct (Z.eqb_spec (datetime_date (ohlc_date l)) (today env)) as [E | _];
    [exfalso; exact (Hstale l eq_refl E) | reflexivity].
Qed.

End IBSyncFacts.

(** C10: [get_ohlc_data] of the brokerage updater issues the same request
    whatever window it is given. The world after the call is the same for
    every pair of dates: untouched when the time checker refuses, and
    otherwise the world before with the one request for the period "5y" and
    the bar "1d" recorded. When the checker lets the call through, the
    outcome is decided by the answer of that request alone: its failure, a
    key error on an empty answer, or the answer filtered by the window and
    staged when a row is left. The window only filters. So an updater with
    no staged frame and no stored bar, which asks for the window from
    2000-01-01, makes that one request and appends the filtered rows of its
    answer, never more rows than the answer holds. *)
Theorem brokerage_lookback_is_fixed env self start_date end_date w :
  (forall start_date' end_date',
     final_world (IBOHLC.get_ohlc_data env self start_date' end_date' w) =
     final_world (IBOHLC.get_ohlc_data env self start_date end_date w)) /\
  final_world (IBOHLC.get_ohlc_data env self start_date end_date w) =
  (if IBOHLC.time_checker_on env &&
      negb (time_check env (IBOHLC.symbol self) "forecast")
   then w
   else fetched (GetBars (IBOHLC.symbol self) "5y" "1d") w) /\
  (IBOHLC.time_checker_on env = false \/
     time_check env (IBOHLC.symbol self) "forecast" = true ->
   IBOHLC.get_ohlc_data env self start_date end_date w =
   match get_bars env (IBOHLC.symbol self) "5y" "1d" with
   | None =>
       Raise (RequestError (GetBars (IBOHLC.symbol self) "5y" "1d"))
             (fetched (GetBars (IBOHLC.symbol self) "5y" "1d") w)
   | Some [] =>
       Raise (KeyError "t") (fetched (GetBars (IBOHLC.symbol self) "5y" "1d") w)
   | Some bars =>
       match IBOHLC.filter_window start_date end_date
               (map (IBOHLC.row_of (IBOHLC.symbol self)) bars) with
       | [] => Ok self (fetched (GetBars (IBOHLC.symbol self) "5y" "1d") w)
       | rows =>
           Ok (IBOHLC.mk (IBOHLC.symbol self) (Some rows))
              (fetched (GetBars (IBOHLC.symbol self) "5y" "1d") w)
       end
   end) /\
  (forall self' w' rows,
     IBOHLC.get_ohlc_data env self start_date end_date w = Ok self' w' ->
     IBOHLC.df self' = Some rows ->
     IBOHLC.df self = Some rows \/
     exists bars,
       get_bars env (IBOHLC.symbol self) "5y" "1d" = Some bars /\
       rows = IBOHLC.filter_window start_date end_date
                (map (IBOHLC.row_of (IBOHLC.symbol self)) bars)) /\
  (forall self' w',
     IBOHLC.df self = None ->
     get_latest_record (IBOHLC.symbol self) w = Ok None w ->
     IBOHLC.update_ohlc_data env self w = Ok self' w' ->
     store w' = store w \/
     exists bars rows,
       get_bars env (IBOHLC.symbol self) "5y" "1d" = Some bars /\
       rows = IBOHLC.filter_window (Some datetime_2000_01_01)
                (Some (now env - timedelta_minutes 20))
                (map (IBOHLC.row_of (IBOHLC.symbol self)) bars) /\
       store w' = store w ++ map IBOHLC.ohlc_of_row rows /\
       (List.length rows <= List.length bars)%nat) /\
  (forall b bars,
     IBOHLC.time_checker_on env = false \/
       time_check env (IBOHLC.symbol self) "forecast" = true ->
     IBOHLC.df self = None ->
     get_latest_record (IBOHLC.symbol self) w = Ok None w ->
     get_bars env (IBOHLC.symbol self) "5y" "1d" = Some (b :: bars) ->
     exists self' w' rows,
       rows = IBOHLC.filter_window (Some datetime_2000_01_01)
                (Some (now env - timedelta_minutes 20))
                (map (IBOHLC.row_of (IBOHLC.symbol self)) (b :: bars)) /\
       IBOHLC.update_ohlc_data env self w = Ok self' w' /\
       store w' = store w ++ map IBOHLC.ohlc_of_row rows /\
       trace w' =
       trace w ++
       Fetch (GetBars (IBOHLC.symbol self) "5y" "1d") ::
       match rows with
       | [] => []
       | _ => [Write (map IBOHLC.ohlc_of_row rows)]
       end /\
       (List.length rows <= List.length (b :: bars))%nat).
Proof.
  split; [| split; [| split; [| split; [| split]]]].
  - intros s' e'. now rewrite !LookbackFacts.get_ohlc_data_world.
  - apply LookbackFacts.get_ohlc_data_world.
  - intros Hgate. rewrite (FilterFacts.gate_open_run _ _ _ _ _ Hgate).
    apply LookbackFacts.fetch_and_filter_run.
  - intros self' w' rows. apply LookbackFacts.get_ohlc_data_staged.
  - intros self' w' Hdf Hlatest H.
    unfold IBOHLC.update_ohlc_data in H.
    rewrite (bind_Ok _ _ _ _ _ Hlatest) in H.
    unfold IBOHLC.fetch_and_insert in H.
    apply bind_inv_Ok in H. destruct H as [self1 [w1 [E H]]].
    assert (Hw1 : store w1 = store w).
    { change w1 with (final_world (Ok self1 w1)). rewrite <- E.
      etransitivity;
        [apply f_equal, LookbackFacts.get_ohlc_data_world |].
      destruct (_ && _); reflexivity. }
    destruct (IBOHLC.df self1) as [rows |] eqn:Erows; cbn [truthy] in H.
    + unfold IBOHLC.insert_ohlc_data, bind in H. rewrite Erows in H.
      cbn [read_attr ret append_rows] in H. injection H as _ <-.
      destruct (LookbackFacts.get_ohlc_data_staged _ _ _ _ _ _ _ _ E Erows)
        as [Hold | [bars [Hbars Hrows]]]; [congruence |].
      right. exists bars, rows. repeat split; try assumption.
      * cbn [store]. now rewrite Hw1.
      * rewrite Hrows. etransitivity;
          [apply LookbackFacts.filter_window_length | now rewrite length_map].
    + injection H as _ <-. left. exact Hw1.
  - intros b bars Hgate Hdf Hlatest Hbars.
    rewrite (IBSyncFacts.update_stale_run env self None w Hlatest
               ltac:(intros l E; discriminate E)).
    rewrite IBSyncFacts.fetch_and_insert_run.
    rewrite (FilterFacts.gate_open_run _ _ _ _ _ Hgate).
    rewrite LookbackFacts.fetch_and_filter_run. cbv zeta. rewrite Hbars.
    pose proof (LookbackFacts.filter_window_length (Some datetime_2000_01_01)
                  (Some (now env - timedelta_minutes 20))
                  (map (IBOHLC.row_of (IBOHLC.symbol self)) (b :: bars))) as Hlen.
    rewrite length_map in Hlen.
    destruct (IBOHLC.filter_window _ _ _) as [| r rows].
    + rewrite Hdf. eexists. eexists. exists []. split; [reflexivity |].
      split; [reflexivity |]. cbn [map store trace fetched].
      rewrite app_nil_r. repeat split. exact Hlen.
    + cbn [IBOHLC.df]. eexists. eexists. exists (r :: rows).
      split; [reflexivity |]. split; [reflexivity |].
      cbn [store trace fetched]. rewrite <- app_assoc.
      repeat split. exact Hlen.
Qed.

Lemma brokerage_lookback_is_fixed_witness :
  IBOHLC.get_ohlc_data Fixture.env_ib Fixture.ib_nvda
    (Some (combine 19998 0)) (Some (combine 19999 0)) Fixture.w_empty =
  Ok Fixture.ib_nvda (fetched (GetBars "NVDA" "5y" "1d") Fixture.w_empty)
  /\ final_world (IBOHLC.get_ohlc_data Fixture.env_ib Fixture.ib_nvda
                    (Some datetime_2000_01_01) None Fixture.w_empty) =
     fetched (GetBars "NVDA" "5y" "1d") Fixture.w_empty.
Proof.
  split.
  - exact (proj1 (proj2 (proj2
             (brokerage_lookback_is_fixed Fixture.env_ib Fixture.ib_nvda
                (Some (combine 19998 0)) (Some (combine 19999 0))
                Fixture.w_empty)))
             (or_introl eq_refl)).
  - exact (proj1 (proj2
             (brokerage_lookback_is_fixed Fixture.env_ib Fixture.ib_nvda
                (Some datetime_2000_01_01) None Fixture.w_empty))).
Defined.

(** X12: with the time checker switched on and refusing, a brokerage
    updater that holds no frame does nothing at all, whatever the store
    holds: no request, no write, the updater unchanged. *)
Theorem gated_brokerage_sync_is_noop env self w :
  IBOHLC.time_checker_on env = true ->
  time_check env (IBOHLC.symbol self) "forecast" = false ->
  IBOHLC.df self = None ->
  IBOHLC.update_ohlc_data env self w = Ok self w.
Proof.
  intros Hon Hcheck Hdf. rewrite IBSyncFacts.brokerage_update_run.
  destruct (fold_left _ _ _) as [latest |].
  - destruct (_ =? _); [reflexivity |].
    rewrite IBSyncFacts.fetch_and_insert_run,
      (IBSyncFacts.gate_closed_run _ _ _ _ _ Hon Hcheck), Hdf. reflexivity.
  - rewrite IBSyncFacts.fetch_and_insert_run,
      (IBSyncFacts.gate_closed_run _ _ _ _ _ Hon Hcheck), Hdf. reflexivity.
Qed.

Lemma gated_brokerage_sync_is_noop_witness :
  IBOHLC.update_ohlc_data Scenario.env_ib_gated Fixture.ib_nvda
    (Fixture.w_latest 19990) = Ok Fixture.ib_nvda (Fixture.w_latest 19990).
Proof.
  exact (gated_brokerage_sync_is_noop Scenario.env_ib_gated Fixture.ib_nvda
           (Fixture.w_latest 19990) eq_refl eq_refl eq_refl).
Defined.

(** X13: when the store is stale and the gateway answers no bar at all, the
    brokerage sync does not end as "nothing new": the frame built from the
    empty answer has no column [t], the run ends in a key error after its one
    request, and nothing is written. *)
Theorem empty_brokerage_answer_raises env self latest w :
  IBOHLC.time_checker_on env = false \/
    time_check env (IBOHLC.symbol self) "forecast" = true ->
  get_latest_record (IBOHLC.symbol self) w = Ok latest w ->
  (forall l, latest = Some l -> datetime_date (ohlc_date l) <> today env) ->
  get_bars env (IBOHLC.symbol self) "5y" "1d" = Some [] ->
  IBOHLC.update_ohlc_data env self w =
  Raise (KeyError "t") (fetched (GetBars (IBOHLC.symbol self) "5y" "1d") w).
Proof.
  intros Hgate Hlatest Hstale Hbars.
  rewrite (IBSyncFacts.update_stale_run _ _ _ _ Hlatest Hstale).
  rewrite IBSyncFacts.fetch_and_insert_run.
  rewrite (FilterFacts.gate_open_run _ _ _ _ _ Hgate).
  rewrite LookbackFacts.fetch_and_filter_run. cbv zeta. rewrite Hbars.
  reflexivity.
Qed.

Lemma empty_brokerage_answer_raises_witness :
  IBOHLC.update_ohlc_data Scenario.env_ib_empty Fixture.ib_nvda Fixture.w_empty =
  Raise (KeyError "t") (fetched (GetBars "NVDA" "5y" "1d") Fixture.w_empty).
Proof.
  apply (empty_brokerage_answer_raises Scenario.env_ib_empty Fixture.ib_nvda
           None Fixture.w_empty (or_introl eq_refl) eq_refl).
  - intros l E. discriminate E.
  - reflexivity.
Defined.

(** X14: on a stale store the brokerage sync of an updater that holds no
    frame appends exactly the rows of the one answer that are dated strictly
    after the latest stored bar plus one day (2000-01-01 when there is none)
    and strictly before now minus 20 minutes; a row stamped exactly one day
    after the latest stored bar is not appended. *)
Theorem brokerage_sync_appends_filtered_rows env self latest b bars w :
  IBOHLC.time_checker_on env = false \/
    time_check env (IBOHLC.symbol self) "forecast" = true ->
  IBOHLC.df self = None ->
  get_latest_record (IBOHLC.symbol self) w = Ok latest w ->
  (forall l, latest = Some l -> datetime_date (ohlc_date l) <> today env) ->
  get_bars env (IBOHLC.symbol self) "5y" "1d" = Some (b :: bars) ->
  exists self' w' rows,
    IBOHLC.update_ohlc_data env self w = Ok self' w' /\
    store w' = store w ++ map IBOHLC.ohlc_of_row rows /\
    (forall r,
       In r rows <->
       In r (map (IBOHLC.row_of (IBOHLC.symbol self)) (b :: bars)) /\
       match latest with
       | Some l => ohlc_date l + timedelta_days 1
       | None => datetime_2000_01_01
       end < df_date r < now env - timedelta_minutes 20).
Proof.
  intros Hgate Hdf Hlatest Hstale Hbars.
  rewrite (IBSyncFacts.update_stale_run _ _ _ _ Hlatest Hstale).
  rewrite IBSyncFacts.fetch_and_insert_run.
  rewrite (FilterFacts.gate_open_run _ _ _ _ _ Hgate).
  rewrite LookbackFacts.fetch_and_filter_run. cbv zeta. rewrite Hbars.
  set (start := match latest with
                | Some l => ohlc_date l + timedelta_days 1
                | None => datetime_2000_01_01
                end).
  assert (Hin : forall r,
    In r (IBOHLC.filter_window (Some start) (Some (now env - timedelta_minutes 20))
            (map (IBOHLC.row_of (IBOHLC.symbol self)) (b :: bars))) <->
    In r (map (IBOHLC.row_of (IBOHLC.symbol self)) (b :: bars)) /\
    start < df_date r < now env - timedelta_minutes 20).
  { intros r. rewrite FilterFacts.filter_window_both, filter_In.
    rewrite andb_true_iff, !Z.ltb_lt. tauto. }
  destruct (IBOHLC.filter_window _ _ _) as [| r rows] eqn:E.
  - rewrite Hdf. eexists. eexists. exists []. split; [reflexivity |].
    cbn [map store fetched]. rewrite app_nil_r. split; [reflexivity | exact Hin].
  - cbn [IBOHLC.df]. eexists. eexists. exists (r :: rows).
    split; [reflexivity |]. split; [reflexivity | exact Hin].
Qed.

Lemma brokerage_sync_appends_filtered_rows_witness :
  exists self' w' rows,
    IBOHLC.update_ohlc_data Fixture.env_ib Fixture.ib_nvda
      (Fixture.w_latest 19997) = Ok self' w' /\
    store w' = store (Fixture.w_latest 19997) ++ map IBOHLC.ohlc_of_row rows /\
    (forall r,
       In r rows <->
       In r (map (IBOHLC.row_of "NVDA")
               [Fixture.ib_bar 19996; Fixture.ib_bar 19997;
                Fixture.ib_bar 19998; Fixture.ib_bar 19999]) /\
       combine 19997 0 + timedelta_days 1 < df_date r
         < Fixture.now0 - timedelta_minutes 20).
Proof.
  apply (brokerage_sync_appends_filtered_rows Fixture.env_ib Fixture.ib_nvda
           (Some (Fixture.row_on "NVDA" 19997))
           (Fixture.ib_bar 19996)
           [Fixture.ib_bar 19997; Fixture.ib_bar 19998; Fixture.ib_bar 19999]
           (Fixture.w_latest 19997) (or_introl eq_refl) eq_refl eq_refl).
  - intros l E. injection E as <-. vm_compute. discriminate.
  - reflexivity.
Defined.

(** X15: [hasattr(self, "df")] also holds for a frame staged by an earlier
    call. When the store is stale and every row of the answer is filtered
    out, an updater that still holds an earlier frame appends that frame
    once more. *)
Theorem earlier_frame_is_appended_again env self latest b bars old w :
  IBOHLC.time_checker_on env = false \/
    time_check env (IBOHLC.symbol self) "forecast" = true ->
  IBOHLC.df self = Some old ->
  get_latest_record (IBOHLC.symbol self) w = Ok latest w ->
  (forall l, latest = Some l -> datetime_date (ohlc_date l) <> today env) ->
  get_bars env (IBOHLC.symbol self) "5y" "1d" = Some (b :: bars) ->
  IBOHLC.filter_window
    (Some match latest with
          | Some l => ohlc_date l + timedelta_days 1
          | None => datetime_2000_01_01
          end)
    (Some (now env - timedelta_minutes 20))
    (map (IBOHLC.row_of (IBOHLC.symbol self)) (b :: bars)) = [] ->
  IBOHLC.update_ohlc_data env self w =
  Ok self
     (mkWorld (store w ++ map IBOHLC.ohlc_of_row old)
        (trace w ++ [Fetch (GetBars (IBOHLC.symbol self) "5y" "1d");
                     Write (map IBOHLC.ohlc_of_row old)])).
Proof.
  intros Hgate Hdf Hlatest Hstale Hbars Hnone.
  rewrite (IBSyncFacts.update_stale_run _ _ _ _ Hlatest Hstale).
  rewrite IBSyncFacts.fetch_and_insert_run.
  rewrite (FilterFacts.gate_open_run _ _ _ _ _ Hgate).
  rewrite LookbackFacts.fetch_and_filter_run. cbv zeta.
  rewrite Hbars. cbv beta iota.
  match goal with
  | |- context [IBOHLC.filter_window ?s ?e ?rows] =>
      replace (IBOHLC.filter_window s e rows) with (@nil DfRow)
        by (symmetry; exact Hnone)
  end.
  rewrite Hdf. unfold fetched. cbn [store trace].
  now rewrite <- app_assoc.
Qed.

Lemma earlier_frame_is_appended_again_witness :
  store (final_world
           (IBOHLC.update_ohlc_data Fixture.env_ib Scenario.ib_nvda_stale
              (Fixture.w_latest 19999))) =
  store (Fixture.w_latest 19999) ++
  [IBOHLC.ohlc_of_row (IBOHLC.row_of "NVDA" (Fixture.ib_bar 19990))].
Proof.
  rewrite (earlier_frame_is_appended_again Fixture.env_ib Scenario.ib_nvda_stale
             (Some (Fixture.row_on "NVDA" 19999))
             (Fixture.ib_bar 19996)
             [Fixture.ib_bar 19997; Fixture.ib_bar 19998; Fixture.ib_bar 19999]
             [IBOHLC.row_of "NVDA" (Fixture.ib_bar 19990)]
             (Fixture.w_latest 19999) (or_introl eq_refl) eq_refl eq_refl
             ltac:(intros l E; injection E as <-; vm_compute; discriminate)
             eq_refl eq_refl).
  reflexivity.
Defined.

(** ** Syncing twice *)

Module ResyncFacts.
Import CryptoCompareOHLC.

(** The sync of an instrument whose latest bar is of yesterday. *)
Lemma yesterday_run env self latest y t w :
  vehicle (instrument self) = "crypto" ->
  get_latest_record (symbol self) w = Ok (Some latest) w ->
  datetime_date (ohlc_date latest) = today env - 1 ->
  histoday env (base_currency (instrument self))
    (quote_currency (instrument self)) 1 (toTs (today env)) = Some [y; t] ->
  update_ohlc_data env self w =
  Ok (set_data self [bar_of_raw t])
     (mkWorld (store w ++ [record_of self (bar_of_raw t)])
        (trace w ++
         [Fetch (GetHistoday (base_currency (instrument self))
                   (quote_currency (instrument self)) 1 (toTs (today env)));
          Write [record_of self (bar_of_raw t)]])).
Proof.
  intros Hv Hlatest Hdate Hpage.
  rewrite SyncFacts.update_ohlc_data_run. cbv zeta.
  unfold get_latest_record in Hlatest. injection Hlatest as ->.
  rewrite Hdate, Z.eqb_refl, SyncFacts.fetch_then_insert_run.
  rewrite (LimitFacts.get_ohlc_data_crypto _ _ _ _ _ Hv).
  rewrite (bind_Ok _ _ _ _ _ (LimitFacts.set_api_limit_start _ _ _ _)).
  replace (today env - (today env - 1)) with 1 by lia.
  cbn [read_local]. unfold ret at 1. rewrite (bind_Ok _ _ _ _ _ eq_refl).
  rewrite PageFacts.fetch_pages_single by lia.
  rewrite (bind_Ok _ _ _ _ _ (PageFacts.request_cryptocompare_Ok _ _ _ _ _ _ Hpage)).
  cbn. rewrite <- app_assoc. reflexivity.
Qed.

(** A bar of a later day is stamped later. *)
Lemma later_day_later_stamp a b :
  datetime_date a < datetime_date b -> a <= b.
Proof.
  unfold datetime_date. intros H.
  destruct (Z.le_gt_cases a b) as [Hle | Hgt]; [exact Hle |].
  assert (b / usec_per_day <= a / usec_per_day)
    by (apply Z.div_le_mono; [reflexivity | lia]).
  lia.
Qed.

End ResyncFacts.

(** X16: syncing again on the same day changes nothing. After the sync of a
    crypto instrument whose latest bar was of yesterday has appended the bar
    of today, a second [update_ohlc_data] finds that bar as the latest one
    and returns without a request or a write. *)
Theorem second_sync_same_day_is_noop env self latest y t w :
  vehicle (CryptoCompareOHLC.instrument self) = "crypto" ->
  get_latest_record (CryptoCompareOHLC.symbol self) w = Ok (Some latest) w ->
  datetime_date (ohlc_date latest) = today env - 1 ->
  histoday env (base_currency (CryptoCompareOHLC.instrument self))
    (quote_currency (CryptoCompareOHLC.instrument self)) 1
    (CryptoCompareOHLC.toTs (today env)) = Some [y; t] ->
  raw_time t / sec_per_day = today env ->
  exists self' w',
    CryptoCompareOHLC.update_ohlc_data env self w = Ok self' w' /\
    store w' <> store w /\
    CryptoCompareOHLC.update_ohlc_data env self' w' = Ok self' w'.
Proof.
  intros Hv Hlatest Hdate Hpage Ht.
  eexists. eexists.
  split; [apply (ResyncFacts.yesterday_run _ _ _ _ _ _ Hv Hlatest Hdate Hpage) |].
  split.
  - cbn [store]. intros E. apply (f_equal (@List.length OHLC)) in E.
    rewrite length_app in E. cbn in E. lia.
  - rewrite SyncFacts.update_ohlc_data_run. cbv zeta.
    cbn [store CryptoCompareOHLC.symbol CryptoCompareOHLC.set_data].
    rewrite fold_left_app. cbn [fold_left].
    unfold get_latest_record in Hlatest. injection Hlatest as ->.
    set (row := CryptoCompareOHLC.record_of self (bar_of_raw t)).
    assert (Hday : datetime_date (ohlc_date row) = today env).
    { unfold row. cbn [CryptoCompareOHLC.record_of ohlc_date].
      change (datetime_date (bar_0 (bar_of_raw t))) with (bar_day (bar_of_raw t)).
      now rewrite TimeFacts.bar_day_of_raw. }
    assert (Hle : (ohlc_date latest <=? ohlc_date row) = true).
    { apply Z.leb_le, ResyncFacts.later_day_later_stamp. lia. }
    unfold later_of.
    change (ohlc_symbol row) with (CryptoCompareOHLC.symbol self).
    rewrite String.eqb_refl, Hle, Hday.
    replace (today env =? today env - 1) with false
      by (symmetry; apply Z.eqb_neq; lia).
    rewrite Z.eqb_refl. reflexivity.
Qed.

Lemma second_sync_same_day_is_noop_witness :
  exists self' w',
    CryptoCompareOHLC.update_ohlc_data Fixture.env_oldest_first Fixture.cc_btcusd
      (Fixture.w_latest 19999) = Ok self' w' /\
    store w' <> store (Fixture.w_latest 19999) /\
    CryptoCompareOHLC.update_ohlc_data Fixture.env_oldest_first self' w' =
    Ok self' w'.
Proof.
  exact (second_sync_same_day_is_noop Fixture.env_oldest_first Fixture.cc_btcusd
           (Fixture.row_on "BTCUSD" 19999) (Fixture.flat 19999)
           (Fixture.flat 20000) (Fixture.w_latest 19999)
           eq_refl eq_refl eq_refl eq_refl eq_refl).
Defined.

(** ** The factory and the exchange adapter *)

Module CaseFacts.
Import OHLCUpdaterFactory.

Lemma lower_ascii_idempotent c : lower_ascii (lower_ascii c) = lower_ascii c.
Proof.
  destruct c as [b0 b1 b2 b3 b4 b5 b6 b7].
  destruct b0, b1, b2, b3, b4, b5, b6, b7; reflexivity.
Qed.

Lemma lower_idempotent s : lower (lower s) = lower s.
Proof.
  induction s as [| c s IH]; [reflexivity |]. cbn [lower].
  now rewrite lower_ascii_idempotent, IH.
Qed.

End CaseFacts.

(** X17: [create_updater] does not see the case of the source name: the
    name and its lower-case form select the same updater, with the same
    outcome. *)
Theorem create_updater_ignores_case env name symbol w :
  OHLCUpdaterFactory.create_updater env (OHLCUpdaterFactory.lower name) symbol w =
  OHLCUpdaterFactory.create_updater env name symbol w.
Proof.
  unfold OHLCUpdaterFactory.create_updater.
  now rewrite CaseFacts.lower_idempotent.
Qed.

(** X18: [get_position] of the brokerage exchange answers 0.0 for every
    symbol, whatever the portfolio holds: [all_positions] asks the gateway
    and then returns an empty dictionary, so the lookup always raises the
    key error that [get_position] turns into 0.0. Only a failure of the
    gateway call itself comes through. *)
Theorem get_position_is_always_zero
    (Position Portfolio : Type) (size : Position -> Q)
    (get_portfolio : M Portfolio) (symbol : string) (w : World) :
  IBExchange.get_position Position size Portfolio get_portfolio symbol w =
  match get_portfolio w with
  | Ok _ w' => Ok 0%Q w'
  | Raise e w' => Raise e w'
  end.
Proof.
  unfold IBExchange.get_position, IBExchange.all_positions, bind.
  destruct (get_portfolio w) as [p w' | e w']; reflexivity.
Qed.
